(** * export_czi: a shallow embedding of [main.py]

    The script converts a multi-channel CZI container into one TIFF file per
    channel.  Its own code is the per-channel display calibration (rescale,
    gamma, dtype conversion), the colormap synthesis from an ARGB hex colour,
    the channel-number lookup and the output naming.  Decoding the container,
    the image routines of scikit-image and the TIFF writer are collaborators
    of the script; they enter the model as an interface ([Collaborators]).

    Python values are modelled as the script handles them: text as [string],
    integers as [Z], floats as binary64 primitive floats, dicts as [gmap],
    exceptions as a [result] type, and the files written as a map from paths
    to their content. *)

From Stdlib Require Import ZArith Ascii Floats Uint63 DecimalString.
From Stdlib Require DecimalZ.
From stdpp Require Import gmap strings list.

Local Open Scope Z_scope.

(** ** Exceptions and results *)

Inductive exn : Type :=
  | KeyError (key : string)
  | IndexError
  | ValueError
  | OverflowError
  | FileNotFoundError (path : string)
  | LibraryError (what : string).

Inductive result (A : Type) : Type :=
  | Ok (a : A)
  | Raise (e : exn).
Arguments Ok {A} a.
Arguments Raise {A} e.

#[global] Instance result_ret : MRet result := λ A a, Ok a.
#[global] Instance result_bind : MBind result := λ A B f r,
  match r with
  | Ok a => f a
  | Raise e => Raise e
  end.

#[global] Instance result_fmap : FMap result := λ A B f r,
  match r with
  | Ok a => Ok (f a)
  | Raise e => Raise e
  end.


(** ** Python text

    Text is a sequence of one-byte characters: file names, field names and
    field values are taken to be ASCII. *)

Module PyStr.

(** [s[:n]] and [s[n:]] for [n >= 0]; a slice past the end is clamped. *)
Fixpoint take (n : nat) (s : string) : string :=
  match n, s with
  | S n', String c s' => String c (take n' s')
  | _, _ => EmptyString
  end.

Fixpoint drop (n : nat) (s : string) : string :=
  match n, s with
  | S n', String _ s' => drop n' s'
  | _, _ => s
  end.

(** [s[a:b]] for non-negative [a], [b]. *)
Definition slice (a b : nat) (s : string) : string :=
  take (b - a) (drop a s).

(** [s[i]] for any integer [i]; out of range raises IndexError. *)
Definition index (s : string) (i : Z) : result ascii :=
  let n := Z.of_nat (String.length s) in
  let j := if i <? 0 then i + n else i in
  if (j <? 0) || (n <=? j) then Raise IndexError
  else match String.get (Z.to_nat j) s with
       | Some c => Ok c
       | None => Raise IndexError
       end.

(** [s.lstrip(c)] for a one-character set. *)
Fixpoint lstrip (c : ascii) (s : string) : string :=
  match s with
  | String a s' => if Ascii.eqb a c then lstrip c s' else s
  | EmptyString => EmptyString
  end.

Definition endswith (s suffix : string) : bool :=
  String.eqb (drop (String.length s - String.length suffix) s) suffix
  && (String.length suffix <=? String.length s)%nat.

(** [s.rfind(c)]: the last index of [c], or -1. *)
Fixpoint rfind_nat (c : ascii) (s : string) : option nat :=
  match s with
  | EmptyString => None
  | String a s' =>
      match rfind_nat c s' with
      | Some i => Some (S i)
      | None => if Ascii.eqb a c then Some 0%nat else None
      end
  end.

Definition rfind (c : ascii) (s : string) : Z :=
  match rfind_nat c s with
  | Some i => Z.of_nat i
  | None => -1
  end.

(** [s.rstrip(c)] for a one-character set. *)
Fixpoint rstrip (c : ascii) (s : string) : string :=
  match s with
  | EmptyString => EmptyString
  | String a s' =>
      match rstrip c s' with
      | EmptyString => if Ascii.eqb a c then EmptyString else String a EmptyString
      | r => String a r
      end
  end.

Fixpoint all_chars (p : ascii → bool) (s : string) : bool :=
  match s with
  | EmptyString => true
  | String a s' => p a && all_chars p s'
  end.

(** [str(z)] and ["{}".format(z)] for an integer. *)
Definition of_int (z : Z) : string := NilEmpty.string_of_int (Z.to_int z).

(** *** [int(text, base)] *)

Definition is_space (c : ascii) : bool :=
  let n := nat_of_ascii c in
  ((9 <=? n) && (n <=? 13) || (28 <=? n) && (n <=? 32))%nat.

Definition digit_value (c : ascii) : option Z :=
  let n := Z.of_nat (nat_of_ascii c) in
  if (48 <=? n) && (n <=? 57) then Some (n - 48)
  else if (97 <=? n) && (n <=? 122) then Some (n - 87)
  else if (65 <=? n) && (n <=? 90) then Some (n - 55)
  else None.

(** The digits of a literal: single underscores are allowed between
    digits only. *)
Fixpoint digits_value (base : Z) (s : string) (acc : Z) (after_digit : bool)
  : option Z :=
  match s with
  | EmptyString => if after_digit then Some acc else None
  | String c s' =>
      if Ascii.eqb c "_" then
        if after_digit then digits_value base s' acc false else None
      else
        match digit_value c with
        | Some d =>
            if d <? base then digits_value base s' (acc * base + d) true
            else None
        | None => None
        end
  end.

Fixpoint lstrip_space (s : string) : string :=
  match s with
  | String a s' => if is_space a then lstrip_space s' else s
  | EmptyString => EmptyString
  end.

Fixpoint rstrip_space (s : string) : string :=
  match s with
  | EmptyString => EmptyString
  | String a s' =>
      match rstrip_space s' with
      | EmptyString => if is_space a then EmptyString else String a EmptyString
      | r => String a r
      end
  end.

(** After the sign: for base 16 an optional [0x]/[0X] prefix, which may be
    followed by one underscore. *)
Definition unsigned_value (base : Z) (s : string) : option Z :=
  match s with
  | String "0" (String x s') =>
      if (base =? 16) && (Ascii.eqb x "x" || Ascii.eqb x "X") then
        match s' with
        | String "_" s'' => digits_value base s'' 0 false
        | _ => digits_value base s' 0 false
        end
      else digits_value base s 0 false
  | _ => digits_value base s 0 false
  end.

Definition to_int (s : string) (base : Z) : result Z :=
  let s := rstrip_space (lstrip_space s) in
  let parsed :=
    match s with
    | String "-" s' => Z.opp <$> unsigned_value base s'
    | String "+" s' => unsigned_value base s'
    | _ => unsigned_value base s
    end in
  match parsed with
  | Some z => Ok z
  | None => Raise ValueError
  end.

End PyStr.

(** ** [os.path] (posixpath) *)

Module OsPath.

Definition sep : ascii := "/".
Definition extsep : ascii := ".".

(** [i = p.rfind('/') + 1; return p[i:]] *)
Definition basename (p : string) : string :=
  PyStr.drop (Z.to_nat (PyStr.rfind sep p + 1)) p.

(** [head = p[:i]]; trailing slashes are removed unless [head] is only
    slashes. *)
Definition dirname (p : string) : string :=
  let head := PyStr.take (Z.to_nat (PyStr.rfind sep p + 1)) p in
  if negb (String.eqb head "") && negb (PyStr.all_chars (Ascii.eqb sep) head)
  then PyStr.rstrip sep head
  else head.

(** [genericpath._splitext]: split at the last dot after the last slash,
    unless only dots stand between the slash and that dot. *)
Definition splitext (p : string) : string * string :=
  let sepIndex := PyStr.rfind sep p in
  let dotIndex := PyStr.rfind extsep p in
  if sepIndex <? dotIndex then
    let between :=
      PyStr.slice (Z.to_nat (sepIndex + 1)) (Z.to_nat dotIndex) p in
    if negb (PyStr.all_chars (Ascii.eqb extsep) between) then
      (PyStr.take (Z.to_nat dotIndex) p, PyStr.drop (Z.to_nat dotIndex) p)
    else (p, "")
  else (p, "").

(** [os.path.join(a, b)] for two components. *)
Definition join (a b : string) : string :=
  match b with
  | String "/" _ => b
  | _ =>
      if String.eqb a "" || PyStr.endswith a "/" then a +:+ b
      else a +:+ "/" +:+ b
  end.

End OsPath.

(** No character of [s] is [c]. *)
Definition lacks (c : ascii) (s : string) : Prop :=
  PyStr.all_chars (λ a, negb (Ascii.eqb a c)) s = true.

(** ** Python floats (binary64) *)

Module PyFloat.

(** [float(z)] for an integer below 2^63 in absolute value (the script only
    converts dtype maxima, pixel values and colour components). *)
Definition of_int (z : Z) : float :=
  if z <? 0 then PrimFloat.opp (PrimFloat.of_uint63 (Uint63.of_Z (- z)))
  else PrimFloat.of_uint63 (Uint63.of_Z z).

(** [x != y] on floats: true for NaN, false for 0.0 against -0.0. *)
Definition neq (x y : float) : bool := negb (PrimFloat.eqb x y).

(** The integer nearest to [m * 2^e], ties to the even one. *)
Definition rint_pos (m : positive) (e : Z) : Z :=
  if 0 <=? e then Z.pos m * 2 ^ e
  else
    let d := 2 ^ (- e) in
    let q := Z.pos m / d in
    let r := Z.pos m mod d in
    if 2 * r <? d then q
    else if d <? 2 * r then q + 1
    else if Z.even q then q else q + 1.

(** [int(np.round(x))]: round half to even, then to a Python integer. *)
Definition round_to_int (x : float) : result Z :=
  match Prim2SF x with
  | S754_zero _ => Ok 0
  | S754_infinity _ => Raise OverflowError
  | S754_nan => Raise ValueError
  | S754_finite s m e =>
      let n := rint_pos m e in Ok (if s then - n else n)
  end.

(** [floor(x)] as an integer; [None] for NaN and the infinities. *)
Definition floor (x : float) : option Z :=
  match Prim2SF x with
  | S754_zero _ => Some 0
  | S754_infinity _ | S754_nan => None
  | S754_finite s m e =>
      Some (if 0 <=? e then (if s then - (Z.pos m * 2 ^ e) else Z.pos m * 2 ^ e)
            else (if s then - Z.pos m else Z.pos m) / 2 ^ (- e))
  end.

(** [trunc(x)]: towards zero. *)
Definition trunc (x : float) : option Z :=
  match Prim2SF x with
  | S754_zero _ => Some 0
  | S754_infinity _ | S754_nan => None
  | S754_finite s m e =>
      let n := if 0 <=? e then Z.pos m * 2 ^ e else Z.pos m / 2 ^ (- e) in
      Some (if s then - n else n)
  end.

End PyFloat.

(** ** numpy *)

Inductive np_dtype : Type :=
  | uint8 | uint16 | int32 | int64 | float32 | float64 | complex64.

#[global] Instance np_dtype_eq_dec : EqDecision np_dtype.
Proof. solve_decision. Defined.

(** An array element: integer dtypes hold integers, float dtypes floats. *)
Inductive scalar : Type :=
  | SInt (z : Z)
  | SFloat (f : float).

(** A two-dimensional plane [array[ch, :, :]] with its dtype. *)
Record ndarray : Type := mk_ndarray {
  nd_dtype : np_dtype;
  nd_data : list (list scalar)
}.

(** A Python number handed to a library routine: [int] or [float]. *)
Inductive py_num : Type :=
  | PyInt (z : Z)
  | PyFloatNum (f : float).

Module Np.

(** [y.astype(np.uint8)] on a float that has an integer value: the C cast,
    wrapping modulo 256. *)
Definition float_to_uint8 (x : float) : Z :=
  match PyFloat.trunc x with
  | Some z => z mod 256
  | None => 0
  end.

Definition floor_float (x : float) : float :=
  match PyFloat.floor x with
  | Some z => PyFloat.of_int z
  | None => x
  end.

(** Modelled from the spec: [numpy.linspace] is a routine of a third-party
    library, not under src/; the spec asks for "linear ramps from 0 to each
    of the colour's components across 256 steps".  The definition follows
    numpy's computation: [arange(0, num) * step + start] in binary64 with
    [step = (stop - start) / (num - 1)], the last sample set to [stop]. *)
Definition linspace (start stop : float) (num : nat) : list float :=
  let div := Z.of_nat num - 1 in
  let delta := (stop - start)%float in
  let y := (λ k, PyFloat.of_int (Z.of_nat k)) <$> seq 0 num in
  let y :=
    if 0 <? div then
      let step := (delta / PyFloat.of_int div)%float in
      if PrimFloat.eqb step 0 then
        (λ v, (v / PyFloat.of_int div * delta)%float) <$> y
      else (λ v, (v * step)%float) <$> y
    else (λ v, (v * delta)%float) <$> y in
  let y := (λ v, (v + start)%float) <$> y in
  if (1 <? num)%nat then take (num - 1) y ++ [stop] else y.

(** [np.linspace(start, stop, dtype=np.uint8, num=num)]: the samples are
    floored and cast to uint8. *)
Definition linspace_uint8 (start stop : Z) (num : nat) : list Z :=
  (λ v, float_to_uint8 (floor_float v))
    <$> linspace (PyFloat.of_int start) (PyFloat.of_int stop) num.

End Np.

(** ** The container, the files written and the collaborators *)

(** One [Channel] entry of the metadata document, as [xmltodict] hands it
    over: a dict from field names to their text (an element without text or
    with nested elements is outside the model). *)
Abbreviation channel_metadata := (gmap string string).

(** The decoded container: [czi.dtype], the [Channel] list under
    [ImageDocument/Metadata/DisplaySetting/Channels] and the planes of
    [np.squeeze(czi.asarray())] by channel. *)
Record CziFile : Type := mk_CziFile {
  czi_dtype : np_dtype;
  czi_channels : list channel_metadata;
  czi_array : list ndarray
}.

Abbreviation colormap_t := (list (list Z)).

(** What [imwrite] puts on disk. *)
Record tiff : Type := mk_tiff {
  tiff_image : ndarray;
  tiff_colormap : option colormap_t
}.

Record filesystem : Type := mk_filesystem {
  fs_dirs : gset string;
  fs_files : gmap string tiff
}.

(** Code that touches the disk: the state is threaded, an exception keeps
    what was written before it. *)
Definition py (A : Type) : Type := filesystem → filesystem * result A.

#[global] Instance py_ret : MRet py := λ A a fs, (fs, Ok a).
#[global] Instance py_bind : MBind py := λ A B f m fs,
  match m fs with
  | (fs', Ok a) => f a fs'
  | (fs', Raise e) => (fs', Raise e)
  end.

Definition lift {A} (r : result A) : py A := λ fs, (fs, r).

(** [for x in xs: body(x)] *)
Fixpoint for_each {A} (xs : list A) (body : A → py unit) : py unit :=
  match xs with
  | [] => mret ()
  | x :: xs' => _ ← body x; for_each xs' body
  end.

(** [xs[i]] for [i >= 0]. *)
Definition list_index {A} (xs : list A) (i : nat) : result A :=
  match xs !! i with
  | Some x => Ok x
  | None => Raise IndexError
  end.

(** The routines the script calls and does not define: the [float] builtin
    on text, the container decoder and the scikit-image routines.  Each may
    raise. *)
Class Collaborators : Type := {
  float_of_str : string → result float;
  czi_open : string → result CziFile;
  rescale_intensity : ndarray → py_num * py_num → result ndarray;
  adjust_gamma : ndarray → float → result ndarray;
  img_as_ubyte : ndarray → result ndarray;
  img_as_uint : ndarray → result ndarray
}.

Module Os.

Definition path_exists (p : string) : py bool :=
  λ fs, (fs, Ok (bool_decide (p ∈ fs_dirs fs) || bool_decide (is_Some (fs_files fs !! p)))).

(** [os.makedirs(p)]; the empty path is refused.  Parent directories and
    permissions are not tracked. *)
Definition makedirs (p : string) : py unit :=
  λ fs, if String.eqb p "" then (fs, Raise (FileNotFoundError p))
        else (mk_filesystem ({[p]} ∪ fs_dirs fs) (fs_files fs), Ok ()).

End Os.

(** The disk after a file is written: a later write replaces an earlier one
    of the same path. *)
Definition written (fs : filesystem) (path : string) (image : ndarray)
    (colormap : option colormap_t) : filesystem :=
  mk_filesystem (fs_dirs fs) (<[path := mk_tiff image colormap]> (fs_files fs)).

(** [imwrite(path, image, colormap=colormap)]; the writer's own checks of
    the image are not modelled. *)
Definition imwrite (path : string) (image : ndarray) (colormap : option colormap_t)
  : py unit :=
  λ fs, (written fs path image colormap, Ok ()).

(** ** The script *)

Definition SHORTNAME_MAPPING : gmap string Z :=
  list_to_map
    [("AF350", 1); ("AF405", 2); ("AF430", 3); ("AF480", 4); ("AF546", 5);
     ("AF594", 6); ("AF647", 7); ("PCP55", 8); ("AF700", 9); ("I800r", 10);
     ("PhaCo", 11)].

(** [tuple(int(hex[i:i + 2], 16) for i in (0, 2, 4))] *)
Definition hex_to_rgb (hex : string) : result (Z * Z * Z) :=
  r ← PyStr.to_int (PyStr.slice 0 2 hex) 16;
  g ← PyStr.to_int (PyStr.slice 2 4 hex) 16;
  b ← PyStr.to_int (PyStr.slice 4 6 hex) 16;
  Ok (r, g, b).

(** The value of the variable [dtype] after lines 53-58: a numpy dtype
    ([czi.dtype], [np.uint8] or [np.uint16]) or the caller's text, unchanged. *)
Inductive dtype_value : Type :=
  | DType (d : np_dtype)
  | DText (s : string).

(** [dtype == np.uint8], [dtype == np.uint16]: text never equals a numpy
    scalar type. *)
Definition dtype_is (v : dtype_value) (d : np_dtype) : bool :=
  match v with
  | DType d' => bool_decide (d' = d)
  | DText _ => false
  end.

Definition resolve_dtype (dtype : string) (czi : CziFile) : dtype_value :=
  if String.eqb dtype "default" then DType (czi_dtype czi)
  else if String.eqb dtype "uint8" then DType uint8
  else if String.eqb dtype "uint16" then DType uint16
  else DText dtype.

(** Lines 44-47: the output filename prefix. *)
Definition base_name_of (round_number : option Z) (czi_filename : string) : string :=
  match round_number with
  | None => (OsPath.splitext (OsPath.basename czi_filename)).1
  | Some r => "R" +:+ PyStr.of_int r
  end.

(** ["{}C{}.tif".format(base_name, channel_number)] *)
Definition output_name (base_name : string) (channel_number : Z) : string :=
  base_name +:+ "C" +:+ PyStr.of_int channel_number +:+ ".tif".

(** Lines 102-106: the three ramps of the 8-bit colormap. *)
Definition synthesize_colormap (cm : channel_metadata) : result colormap_t :=
  color ← hex_to_rgb (PyStr.drop 2 (PyStr.lstrip "#" (default "#FFFFFFFF" (cm !! "Color"))));
  let '(r, g, b) := color in
  Ok [Np.linspace_uint8 0 r 256; Np.linspace_uint8 0 g 256; Np.linspace_uint8 0 b 256].

(** Lines 101-108. *)
Definition make_colormap (dtype : dtype_value) (cm : channel_metadata)
  : result (option colormap_t) :=
  if dtype_is dtype uint8 then Some <$> synthesize_colormap cm
  else Ok None.

(** Line 111: [SHORTNAME_MAPPING[channel_metadata['ShortName']]]. *)
Definition channel_number_of (cm : channel_metadata) : result Z :=
  match cm !! "ShortName" with
  | None => Raise (KeyError "ShortName")
  | Some short_name =>
      match SHORTNAME_MAPPING !! short_name with
      | Some n => Ok n
      | None => Raise (KeyError short_name)
      end
  end.

Section script.
Context `{Collaborators}.

(** [float(channel_metadata.get(key, default))] *)
Definition get_float (cm : channel_metadata) (key : string) (default : Z)
  : result float :=
  match cm !! key with
  | Some text => float_of_str text
  | None => Ok (PyFloat.of_int default)
  end.

(** Lines 73-75. *)
Definition display_min_of (cm : channel_metadata) := get_float cm "Low" 0.
Definition display_max_of (cm : channel_metadata) := get_float cm "High" 1.
Definition gamma_of (cm : channel_metadata) := get_float cm "Gamma" 1.

(** Lines 81-86: the bounds handed to [rescale_intensity] as [in_range]. *)
Definition display_bounds (image_dtype : np_dtype) (display_min display_max : float)
  : result (py_num * py_num) :=
  if bool_decide (image_dtype = uint8) then
    lo ← PyFloat.round_to_int (display_min * 255)%float;
    hi ← PyFloat.round_to_int (display_max * 255)%float;
    Ok (PyInt lo, PyInt hi)
  else if bool_decide (image_dtype = uint16) then
    lo ← PyFloat.round_to_int (display_min * 65535)%float;
    hi ← PyFloat.round_to_int (display_max * 65535)%float;
    Ok (PyInt lo, PyInt hi)
  else Ok (PyFloatNum display_min, PyFloatNum display_max).

(** Lines 78-88. *)
Definition rescale_step (image : ndarray) (display_min display_max : float)
  : result ndarray :=
  if PyFloat.neq display_min 0 || PyFloat.neq display_max 1 then
    in_range ← display_bounds (nd_dtype image) display_min display_max;
    rescale_intensity image in_range
  else Ok image.

(** Lines 91-92. *)
Definition gamma_step (image : ndarray) (gamma : float) : result ndarray :=
  if PyFloat.neq gamma 1 then adjust_gamma image gamma else Ok image.

(** Lines 95-98. *)
Definition set_dtype (dtype : dtype_value) (image : ndarray) : result ndarray :=
  if dtype_is dtype uint8 then img_as_ubyte image
  else if dtype_is dtype uint16 then img_as_uint image
  else Ok image.

(** Lines 73-98: the calibration of one plane. *)
Definition calibrate (dtype : dtype_value) (image : ndarray) (cm : channel_metadata)
  : result ndarray :=
  display_min ← display_min_of cm;
  display_max ← display_max_of cm;
  gamma ← gamma_of cm;
  image ← rescale_step image display_min display_max;
  image ← gamma_step image gamma;
  set_dtype dtype image.

(** Lines 69-115: the body of the channel loop. *)
Definition export_channel (output_dir base_name : string) (dtype : dtype_value)
    (image : ndarray) (cm : channel_metadata) : py unit :=
  image ← lift (calibrate dtype image cm);
  colormap ← lift (make_colormap dtype cm);
  channel_number ← lift (channel_number_of cm);
  imwrite (OsPath.join output_dir (output_name base_name channel_number))
          image colormap.

(** Lines 67-115: the loop over the channels [channels] of the container. *)
Definition channel_loop (output_dir base_name : string) (dtype : dtype_value)
    (czi : CziFile) (channels : list nat) : py unit :=
  for_each channels (λ ch,
    image ← lift (list_index (czi_array czi) ch);
    cm ← lift (list_index (czi_channels czi) ch);
    export_channel output_dir base_name dtype image cm).

Definition export_czi (czi_filename : string) (output_dir : option string)
    (round_number : option Z) (dtype : string) : py unit :=
  let output_dir :=
    match output_dir with
    | None => OsPath.dirname czi_filename
    | Some d => d
    end in
  present ← Os.path_exists output_dir;
  _ ← (if negb present then Os.makedirs output_dir else mret ());
  let base_name := base_name_of round_number czi_filename in
  czi ← lift (czi_open czi_filename);
  let dtype := resolve_dtype dtype czi in
  channel_loop output_dir base_name dtype czi (seq 0 (length (czi_array czi))).

(** Line 136: [int(file[-6])]. *)
Definition round_number_of (file : string) : result Z :=
  c ← PyStr.index file (-6);
  PyStr.to_int (String c "") 10.

(** Lines 133-137, over the names [os.listdir(args.input_dir)] returns. *)
Definition main (input_dir : string) (output_dir : option string) (dtype : string)
    (listing : list string) : py unit :=
  for_each listing (λ file,
    if PyStr.endswith file ".czi" then
      round_number ← lift (round_number_of file);
      export_czi (OsPath.join input_dir file) output_dir (Some round_number) dtype
    else mret ()).

End script.

(** ** scikit-image on 8-bit planes *)

Module Skimage.

Definition to_float (n : py_num) : float :=
  match n with
  | PyInt z => PyFloat.of_int z
  | PyFloatNum f => f
  end.

Definition scalar_to_float (p : scalar) : float :=
  match p with
  | SInt z => PyFloat.of_int z
  | SFloat f => f
  end.

(** [np.clip(v, lo, hi)] *)
Definition clip (v lo hi : float) : float :=
  let v := if PrimFloat.ltb v lo then lo else v in
  if PrimFloat.ltb hi v then hi else v.

(** One pixel of [rescale_intensity] on a uint8 image: the output range is
    the dtype's, (0, 255); the arithmetic is binary64 and the result is cast
    back to uint8. *)
Definition rescale_pixel_uint8 (imin imax : float) (p : scalar) : scalar :=
  let v := clip (scalar_to_float p) imin imax in
  if PyFloat.neq imin imax then
    SInt (Np.float_to_uint8 ((v - imin) / (imax - imin) * (255 - 0) + 0)%float)
  else SInt (Np.float_to_uint8 (clip v 0 255)).

(** Modelled from the spec: [skimage.exposure.rescale_intensity] is a routine
    of a third-party library, not under src/; the spec asks to "linearly
    rescale the plane so that values <= min map to 0 and values >= max map to
    the dtype's maximum, clipping outside that range".  The definition
    follows the library's computation on a uint8 image: clip to [in_range],
    normalise, scale to (0, 255), cast to the image's dtype. *)
Definition rescale_intensity_uint8 (image : ndarray) (in_range : py_num * py_num)
  : ndarray :=
  mk_ndarray (nd_dtype image)
    (map (map (rescale_pixel_uint8 (to_float in_range.1) (to_float in_range.2)))
         (nd_data image)).

End Skimage.

(** A uint8 plane from its pixel values. *)
Definition uint8_plane (zs : list (list Z)) : ndarray :=
  mk_ndarray uint8 (map (map SInt) zs).

(** ** The specification's side *)

Module Spec.

(** "Linearly rescale so that values <= lo map to 0 and values >= hi map to
    the dtype's maximum, clipping outside": the 8-bit ramp between integer
    bounds [lo < hi], rounded down. *)
Definition rescale_uint8 (lo hi x : Z) : Z :=
  255 * (Z.min (Z.max x lo) hi - lo) / (hi - lo).

(** The position of a character in a text, counted from 0. *)
Fixpoint position (c : ascii) (digits : string) : option Z :=
  match digits with
  | EmptyString => None
  | String d rest =>
      if Ascii.eqb c d then Some 0 else Z.succ <$> position c rest
  end.

(** The value of one hexadecimal digit, in either case. *)
Definition hex_digit (c : ascii) : option Z :=
  match position c "0123456789abcdef" with
  | Some v => Some v
  | None => position c "0123456789ABCDEF"
  end.

(** The byte two hexadecimal digits spell. *)
Definition hex_byte (hi lo : ascii) : option Z :=
  h ← hex_digit hi; l ← hex_digit lo; Some (16 * h + l).

(** The character of a decimal digit. *)
Definition decimal_digit (r : Z) : ascii := ascii_of_nat (Z.to_nat (48 + r)).

(** An 8-bit ramp towards [top]: 256 entries, from 0 to [top], never
    decreasing. *)
Definition is_ramp (row : list Z) (top : Z) : Prop :=
  length row = 256%nat ∧
  row !! 0%nat = Some 0 ∧
  row !! 255%nat = Some top ∧
  ∀ (i j : nat) (x y : Z), (i ≤ j)%nat → row !! i = Some x → row !! j = Some y → x ≤ y.

(** "Rescaled from normalized [0,1] into D's native integer range": the
    bound times the largest value of the integer dtype, rounded. *)
Definition native_max (d : np_dtype) : option Z :=
  match d with
  | uint8 => Some 255
  | uint16 => Some 65535
  | int32 => Some 2147483647
  | int64 => Some 9223372036854775807
  | float32 | float64 | complex64 => None
  end.

End Spec.

(** The invariant of section 3 of the specification, read for every source
    dtype: whenever the display range is not exactly (0, 1), the bounds
    handed to the rescale are the normalized bounds times the dtype's
    largest integer, rounded. *)
Definition bounds_rescaled_for_every_dtype : Prop :=
  ∀ (d : np_dtype) (display_min display_max : float),
    PyFloat.neq display_min 0 || PyFloat.neq display_max 1 = true →
    ∃ m : Z,
      Spec.native_max d = Some m ∧
      display_bounds d display_min display_max =
        (lo ← PyFloat.round_to_int (display_min * PyFloat.of_int m)%float;
         hi ← PyFloat.round_to_int (display_max * PyFloat.of_int m)%float;
         Ok (PyInt lo, PyInt hi)).

(** ** A concrete set of collaborators

    Used to run the script on examples: the [float] builtin on the literals
    the examples use, scikit-image on uint8 planes, and a disk holding one
    two-channel 8-bit container. *)

Module Demo.

Definition float_of_str (text : string) : result float :=
  if String.eqb text "0" then Ok 0%float
  else if String.eqb text "1" then Ok 1%float
  else if String.eqb text "0.5" then Ok 0.5%float
  else if String.eqb text "1.0" then Ok 1%float
  else if String.eqb text "0.0" then Ok 0%float
  else Raise ValueError.

Definition plane0 : ndarray := uint8_plane [[0; 100; 127]; [128; 200; 255]].
Definition plane1 : ndarray := uint8_plane [[1; 2; 3]; [4; 5; 6]].

Definition channel0 : channel_metadata :=
  list_to_map [("Low", "0.5"); ("High", "1.0"); ("Gamma", "1");
               ("Color", "#FF00FF80"); ("ShortName", "AF647")].
Definition channel1 : channel_metadata :=
  list_to_map [("Color", "#FFFF0000"); ("ShortName", "AF405")].

Definition channel_full : channel_metadata :=
  list_to_map [("Low", "0.0"); ("High", "1.0"); ("Gamma", "1");
               ("Color", "#FF00FF00"); ("ShortName", "AF350")].

Definition scan : CziFile := mk_CziFile uint8 [channel0; channel1] [plane0; plane1].

Definition czi_open (path : string) : result CziFile :=
  if String.eqb path "/data/S1_R2a.czi" then Ok scan
  else Raise (FileNotFoundError path).

Definition rescale_intensity (image : ndarray) (in_range : py_num * py_num)
  : result ndarray :=
  if bool_decide (nd_dtype image = uint8)
  then Ok (Skimage.rescale_intensity_uint8 image in_range)
  else Raise (LibraryError "rescale_intensity").

Definition adjust_gamma (image : ndarray) (gamma : float) : result ndarray :=
  Raise (LibraryError "adjust_gamma").

(** [img_as_ubyte] leaves a uint8 image as it is. *)
Definition img_as_ubyte (image : ndarray) : result ndarray :=
  if bool_decide (nd_dtype image = uint8) then Ok image
  else Raise (LibraryError "img_as_ubyte").

(** [img_as_uint] stretches a uint8 image to uint16: 255 becomes 65535. *)
Definition img_as_uint (image : ndarray) : result ndarray :=
  if bool_decide (nd_dtype image = uint8) then
    Ok (mk_ndarray uint16
          (map (map (λ p, match p with SInt z => SInt (z * 257) | _ => p end))
               (nd_data image)))
  else Raise (LibraryError "img_as_uint").

Definition empty_disk : filesystem := mk_filesystem ∅ ∅.

Definition collaborators : Collaborators :=
  Build_Collaborators float_of_str czi_open rescale_intensity adjust_gamma
    img_as_ubyte img_as_uint.

End Demo.

(** ** Checkers run over all bytes *)

Module Check.

Fixpoint nondecreasing (row : list Z) : bool :=
  match row with
  | [] => true
  | x :: rest =>
      match rest with
      | [] => true
      | y :: _ => (x <=? y) && nondecreasing rest
      end
  end.

(** The row [np.linspace(0, top, dtype=np.uint8, num=256)] is a ramp to [top]. *)
Definition ramp (top : Z) : bool :=
  let row := Np.linspace_uint8 0 top 256 in
  (length row =? 256)%nat
  && bool_decide (row !! 0%nat = Some 0)
  && bool_decide (row !! 255%nat = Some top)
  && nondecreasing row.

Definition bytes : list Z := Z.of_nat <$> seq 0 256.

Definition all_ascii : list ascii := ascii_of_nat <$> seq 0 256.

(** [int(text, 16)] on two hexadecimal digits is the byte they spell. *)
Definition hex_pair (a b : ascii) : bool :=
  match Spec.hex_byte a b with
  | None => true
  | Some v =>
      match PyStr.to_int (String a (String b "")) 16 with
      | Ok z => (z =? v) && (0 <=? v) && (v <=? 255)
      | Raise _ => false
      end
  end.

(** The modelled rescale of a uint8 pixel between the bounds 128 and 255
    agrees with the specification's ramp. *)
Definition rescale_pixel (x : Z) : bool :=
  match Skimage.rescale_pixel_uint8 128 255 (SInt x) with
  | SInt z => z =? Spec.rescale_uint8 128 255 x
  | SFloat _ => false
  end.

End Check.

(** ** Notions for the properties of a whole export *)

(** Lines 37-38: the directory the files are written into. *)
Definition output_dir_of (output_dir : option string) (czi_filename : string)
  : string :=
  match output_dir with
  | None => OsPath.dirname czi_filename
  | Some d => d
  end.

(** The paths an export into [output_dir] with prefix [base_name] can write:
    one for each entry of the table. *)
Definition channel_paths (output_dir base_name : string) : list string :=
  (λ kv : string * Z, OsPath.join output_dir (output_name base_name kv.2))
    <$> map_to_list SHORTNAME_MAPPING.

(** [fs'] keeps every directory and every path of [fs] and differs from it
    on the files of [paths] only. *)
Definition grows_within (paths : list string) (fs fs' : filesystem) : Prop :=
  fs_dirs fs ⊆ fs_dirs fs' ∧
  (∀ p, is_Some (fs_files fs !! p) → is_Some (fs_files fs' !! p)) ∧
  (∀ p, p ∉ paths → fs_files fs' !! p = fs_files fs !! p).

(** The ramp 0, 1, ..., 255. *)
Definition identity_ramp : list Z := Z.of_nat <$> seq 0 256.

(** [int(c)] of one character: a decimal digit gives its value, anything
    else raises ValueError. *)
Definition single_digit_check (c : ascii) : bool :=
  match PyStr.to_int (String c "") 10, Spec.position c "0123456789" with
  | Ok r, Some v => (r =? v) && (0 <=? r) && (r <=? 9)
  | Raise ValueError, None => true
  | _, _ => false
  end.

Section loop_body.
Context `{Collaborators}.

(** Lines 69-115 for the channel [ch]: the body of the loop of
    [channel_loop]. *)
Definition channel_body (output_dir base_name : string) (dtype : dtype_value)
    (czi : CziFile) (ch : nat) : py unit :=
  image ← lift (list_index (czi_array czi) ch);
  cm ← lift (list_index (czi_channels czi) ch);
  export_channel output_dir base_name dtype image cm.

End loop_body.

(** * Properties *)

(** ** Loops *)



Section properties.
Context `{Collaborators}.

(** ** Reading the display settings *)

Lemma get_float_missing (cm : channel_metadata) (key : string) (dflt : Z) :
  cm !! key = None → get_float cm key dflt = Ok (PyFloat.of_int dflt).
Proof. unfold get_float. by intros ->. Qed.

Lemma rescale_step_skipped (image : ndarray) (lo hi : float) :
  PrimFloat.eqb lo 0 = true → PrimFloat.eqb hi 1 = true →
  rescale_step image lo hi = Ok image.
Proof. unfold rescale_step, PyFloat.neq. by intros -> ->. Qed.

Lemma gamma_step_skipped (image : ndarray) (gamma : float) :
  PrimFloat.eqb gamma 1 = true → gamma_step image gamma = Ok image.
Proof. unfold gamma_step, PyFloat.neq. by intros ->. Qed.

Lemma calibrate_unfold dtype image cm lo hi g :
  display_min_of cm = Ok lo → display_max_of cm = Ok hi → gamma_of cm = Ok g →
  calibrate dtype image cm =
    (image ← rescale_step image lo hi; image ← gamma_step image g; set_dtype dtype image).
Proof. unfold calibrate. by intros -> -> ->. Qed.

(** C8: a missing [Low], [High] or [Gamma] field reads as 0, 1 and 1 without
    an error, and with all three missing neither the rescale nor the gamma
    routine is applied. *)
Theorem C8_missing_fields_default (cm : channel_metadata) :
  (cm !! "Low" = None → display_min_of cm = Ok 0%float) ∧
  (cm !! "High" = None → display_max_of cm = Ok 1%float) ∧
  (cm !! "Gamma" = None → gamma_of cm = Ok 1%float) ∧
  (cm !! "Low" = None → cm !! "High" = None → cm !! "Gamma" = None →
   ∀ dtype image,
     rescale_step image 0 1 = Ok image ∧
     gamma_step image 1 = Ok image ∧
     calibrate dtype image cm = set_dtype dtype image).
Proof.
  unfold display_min_of, display_max_of, gamma_of.
  split; [|split; [|split]]; try (intros Hnone; by rewrite get_float_missing).
  intros Hlo Hhi Hg dtype image. split; [done|]. split; [done|].
  unfold calibrate, display_min_of, display_max_of, gamma_of.
  rewrite !get_float_missing by done. reflexivity.
Qed.

(** ** One channel *)

Lemma export_channel_run output_dir base_name dtype image cm fs :
  export_channel output_dir base_name dtype image cm fs =
    match calibrate dtype image cm with
    | Raise e => (fs, Raise e)
    | Ok out =>
        match make_colormap dtype cm with
        | Raise e => (fs, Raise e)
        | Ok colormap =>
            match channel_number_of cm with
            | Raise e => (fs, Raise e)
            | Ok n =>
                (written fs (OsPath.join output_dir (output_name base_name n)) out colormap,
                 Ok ())
            end
        end
    end.
Proof.
  unfold export_channel, mbind, py_bind, lift.
  destruct (calibrate dtype image cm); [|done].
  destruct (make_colormap dtype cm); [|done].
  by destruct (channel_number_of cm).
Qed.

(** An exception in a channel leaves the disk as it was. *)
Lemma export_channel_raise output_dir base_name dtype image cm fs fs' e :
  export_channel output_dir base_name dtype image cm fs = (fs', Raise e) → fs' = fs.
Proof.
  rewrite export_channel_run.
  destruct (calibrate dtype image cm); [|congruence].
  destruct (make_colormap dtype cm); [|congruence].
  destruct (channel_number_of cm); congruence.
Qed.

Lemma export_channel_ok output_dir base_name dtype image cm fs fs' :
  export_channel output_dir base_name dtype image cm fs = (fs', Ok ()) →
  ∃ out colormap n,
    calibrate dtype image cm = Ok out ∧
    make_colormap dtype cm = Ok colormap ∧
    channel_number_of cm = Ok n ∧
    fs' = written fs (OsPath.join output_dir (output_name base_name n)) out colormap.
Proof.
  rewrite export_channel_run.
  destruct (calibrate dtype image cm) as [out|]; [|congruence].
  destruct (make_colormap dtype cm) as [colormap|]; [|congruence].
  destruct (channel_number_of cm) as [n|]; [|congruence].
  intros [= <-]. by exists out, colormap, n.
Qed.

(** C1: with display range (0, 1) and gamma 1 the rescale and the gamma
    steps are skipped, and the exported plane is the dtype conversion of the
    input plane itself: [img_as_ubyte] for 8-bit output, [img_as_uint] for
    16-bit output, the plane unchanged otherwise. *)
Theorem C1_identity_transform (dtype : dtype_value) (image : ndarray)
    (cm : channel_metadata) (lo hi g : float) :
  display_min_of cm = Ok lo → display_max_of cm = Ok hi → gamma_of cm = Ok g →
  PrimFloat.eqb lo 0 = true → PrimFloat.eqb hi 1 = true → PrimFloat.eqb g 1 = true →
  rescale_step image lo hi = Ok image ∧
  gamma_step image g = Ok image ∧
  calibrate dtype image cm = set_dtype dtype image ∧
  set_dtype dtype image =
    match dtype with
    | DType uint8 => img_as_ubyte image
    | DType uint16 => img_as_uint image
    | _ => Ok image
    end ∧
  (∀ output_dir base_name fs fs',
     export_channel output_dir base_name dtype image cm fs = (fs', Ok ()) →
     ∃ path out colormap,
       set_dtype dtype image = Ok out ∧ fs' = written fs path out colormap).
Proof.
  intros Hlo Hhi Hg Elo Ehi Eg.
  assert (Hcal : calibrate dtype image cm = set_dtype dtype image).
  { rewrite (calibrate_unfold _ _ _ _ _ _ Hlo Hhi Hg).
    rewrite rescale_step_skipped by done. cbn.
    by rewrite gamma_step_skipped. }
  split; [by apply rescale_step_skipped|].
  split; [by apply gamma_step_skipped|].
  split; [done|]. split.
  - unfold set_dtype. by destruct dtype as [[]|].
  - intros output_dir base_name fs fs' Hrun.
    apply export_channel_ok in Hrun as (out & colormap & n & Hc & _ & _ & ->).
    rewrite Hcal in Hc. by eexists _, out, colormap.
Qed.

(** ** Colormap and output dtype *)

Lemma make_colormap_not_uint8 dtype cm :
  dtype_is dtype uint8 = false → make_colormap dtype cm = Ok None.
Proof. unfold make_colormap. by intros ->. Qed.

(** C5: when the output dtype is not uint8 (in particular when uint16 is
    requested) no colormap is synthesized, whatever the [Color] field holds,
    and the file of the channel is written with [colormap = None]. *)
Theorem C5_no_colormap_unless_uint8 (dtype : dtype_value) (cm : channel_metadata) :
  dtype_is dtype uint8 = false →
  make_colormap dtype cm = Ok None ∧
  (∀ czi, make_colormap (resolve_dtype "uint16" czi) cm = Ok None) ∧
  (∀ output_dir base_name image fs fs',
     export_channel output_dir base_name dtype image cm fs = (fs', Ok ()) →
     ∃ path out,
       fs' = written fs path out None ∧
       tiff_colormap <$> fs_files fs' !! path = Some None).
Proof.
  intros Hd. split; [by apply make_colormap_not_uint8|]. split; [done|].
  intros output_dir base_name image fs fs' Hrun.
  apply export_channel_ok in Hrun as (out & colormap & n & _ & Hc & _ & ->).
  rewrite make_colormap_not_uint8 in Hc by done. injection Hc as <-.
  eexists _, out. split; [done|]. cbn. by rewrite lookup_insert_eq.
Qed.

(** The request [uint16] always resolves to a dtype that is not uint8. *)
Lemma resolve_uint16 (czi : CziFile) : resolve_dtype "uint16" czi = DType uint16.
Proof. reflexivity. Qed.

(** ** Unknown short names *)




(** ** Unrecognized dtype arguments *)

Lemma resolve_dtype_other (dtype : string) (czi : CziFile) :
  dtype ≠ "default" → dtype ≠ "uint8" → dtype ≠ "uint16" →
  resolve_dtype dtype czi = DText dtype.
Proof.
  intros H1 H2 H3. unfold resolve_dtype.
  by rewrite !(proj2 (String.eqb_neq _ _)).
Qed.

Lemma rescale_step_dtype (image out : ndarray) (lo hi : float) :
  (∀ img r out, rescale_intensity img r = Ok out → nd_dtype out = nd_dtype img) →
  rescale_step image lo hi = Ok out → nd_dtype out = nd_dtype image.
Proof.
  intros Hkeep. unfold rescale_step.
  destruct (_ || _); [|by intros [= <-]].
  destruct (display_bounds _ _ _) as [r|]; [|done]. cbn. apply Hkeep.
Qed.

Lemma gamma_step_dtype (image out : ndarray) (g : float) :
  (∀ img g out, adjust_gamma img g = Ok out → nd_dtype out = nd_dtype img) →
  gamma_step image g = Ok out → nd_dtype out = nd_dtype image.
Proof.
  intros Hkeep. unfold gamma_step.
  destruct (PyFloat.neq g 1); [apply Hkeep | by intros [= <-]].
Qed.

(** C9: a dtype argument other than [default], [uint8] and [uint16] is kept
    as the text it is, without an error; neither [img_as_ubyte] nor
    [img_as_uint] is applied, no colormap is attached, and, the rescale and
    gamma routines keeping the dtype of their input, the plane written has
    the dtype of the input plane. *)
Theorem C9_unrecognized_dtype (dtype : string) (czi : CziFile) (image : ndarray)
    (cm : channel_metadata) :
  dtype ≠ "default" → dtype ≠ "uint8" → dtype ≠ "uint16" →
  (∀ img r out, rescale_intensity img r = Ok out → nd_dtype out = nd_dtype img) →
  (∀ img g out, adjust_gamma img g = Ok out → nd_dtype out = nd_dtype img) →
  resolve_dtype dtype czi = DText dtype ∧
  (∀ plane, set_dtype (resolve_dtype dtype czi) plane = Ok plane) ∧
  make_colormap (resolve_dtype dtype czi) cm = Ok None ∧
  calibrate (resolve_dtype dtype czi) image cm =
    (display_min ← display_min_of cm;
     display_max ← display_max_of cm;
     gamma ← gamma_of cm;
     image ← rescale_step image display_min display_max;
     gamma_step image gamma) ∧
  (∀ output_dir base_name fs fs',
     export_channel output_dir base_name (resolve_dtype dtype czi) image cm fs
       = (fs', Ok ()) →
     ∃ path out,
       fs' = written fs path out None ∧ nd_dtype out = nd_dtype image).
Proof.
  intros H1 H2 H3 Hrescale Hgamma.
  rewrite (resolve_dtype_other _ _ H1 H2 H3).
  assert (Hcal : calibrate (DText dtype) image cm =
    (display_min ← display_min_of cm;
     display_max ← display_max_of cm;
     gamma ← gamma_of cm;
     image ← rescale_step image display_min display_max;
     gamma_step image gamma)).
  { unfold calibrate.
    destruct (display_min_of cm) as [lo|]; [|done].
    destruct (display_max_of cm) as [hi|]; [|done].
    destruct (gamma_of cm) as [g|]; [|done]. cbn.
    destruct (rescale_step image lo hi) as [img1|]; [|done]. cbn.
    by destruct (gamma_step img1 g). }
  split; [done|]. split; [done|]. split; [done|]. split; [done|].
  intros output_dir base_name fs fs' Hrun.
  apply export_channel_ok in Hrun as (out & colormap & n & Hc & Hmap & _ & ->).
  injection Hmap as <-. eexists _, out. split; [done|].
  rewrite Hcal in Hc.
  destruct (display_min_of cm) as [lo|]; [|done].
  destruct (display_max_of cm) as [hi|]; [|done].
  destruct (gamma_of cm) as [g|]; [|done]. cbn in Hc.
  destruct (rescale_step image lo hi) as [img1|] eqn:Hr; [|done]. cbn in Hc.
  rewrite (gamma_step_dtype _ _ _ Hgamma Hc).
  by apply (rescale_step_dtype _ _ lo hi).
Qed.

(** ** The rescale bounds *)

Lemma rescale_step_taken (image : ndarray) (lo hi : float) :
  PyFloat.neq lo 0 || PyFloat.neq hi 1 = true →
  rescale_step image lo hi =
    (in_range ← display_bounds (nd_dtype image) lo hi; rescale_intensity image in_range).
Proof. unfold rescale_step. by intros ->. Qed.

(** C3, as the code has it: whenever the display range is not exactly (0, 1),
    the bounds of a uint8 plane are multiplied by 255 and rounded, those of
    a uint16 plane by 65535 and rounded, and the rounded integers are the
    bounds handed to the rescale; for a plane of any other dtype the bounds
    are handed over as read, still normalized. *)
Theorem C3_bounds_by_source_dtype (image : ndarray) (lo hi : float) :
  PyFloat.neq lo 0 || PyFloat.neq hi 1 = true →
  (∀ m, (nd_dtype image = uint8 ∧ m = 255) ∨ (nd_dtype image = uint16 ∧ m = 65535) →
     Spec.native_max (nd_dtype image) = Some m ∧
     rescale_step image lo hi =
       (a ← PyFloat.round_to_int (lo * PyFloat.of_int m)%float;
        b ← PyFloat.round_to_int (hi * PyFloat.of_int m)%float;
        rescale_intensity image (PyInt a, PyInt b))) ∧
  (nd_dtype image ≠ uint8 → nd_dtype image ≠ uint16 →
     rescale_step image lo hi = rescale_intensity image (PyFloatNum lo, PyFloatNum hi)).
Proof.
  intros Hne. rewrite (rescale_step_taken _ _ _ Hne). unfold display_bounds. split.
  - intros m [[-> ->]|[-> ->]]; (split; [done|]); cbn.
    + destruct (PyFloat.round_to_int (lo * 255)); [|done]. cbn.
      by destruct (PyFloat.round_to_int (hi * 255)).
    + destruct (PyFloat.round_to_int (lo * 65535)); [|done]. cbn.
      by destruct (PyFloat.round_to_int (hi * 65535)).
  - intros H8 H16. by rewrite !bool_decide_eq_false_2.
Qed.

End properties.

(** ** Text and paths *)

Lemma app_cons (a : ascii) (s t : string) : String a s +:+ t = String a (s +:+ t).
Proof. reflexivity. Qed.

Lemma app_nil (t : string) : "" +:+ t = t.
Proof. reflexivity. Qed.

Lemma length_app (s t : string) :
  String.length (s +:+ t) = (String.length s + String.length t)%nat.
Proof.
  induction s as [|a s IH]; [done|].
  rewrite app_cons. cbn [String.length]. by rewrite IH.
Qed.

Lemma app_assoc_str (s t u : string) : (s +:+ t) +:+ u = s +:+ (t +:+ u).
Proof. induction s as [|a s IH]; [done|]. rewrite !app_cons. by rewrite IH. Qed.

Lemma drop_app_length (s t : string) : PyStr.drop (String.length s) (s +:+ t) = t.
Proof.
  induction s as [|a s IH]; [by destruct t|]. rewrite app_cons. exact IH.
Qed.

Lemma take_app_length (s t : string) : PyStr.take (String.length s) (s +:+ t) = s.
Proof.
  induction s as [|a s IH]; [by destruct t|].
  rewrite app_cons. cbn [String.length PyStr.take]. by rewrite IH.
Qed.

Lemma drop_0 (s : string) : PyStr.drop 0 s = s.
Proof. by destruct s. Qed.

Lemma get_app_length (s t : string) (c : ascii) :
  String.get (String.length s) (s +:+ String c t) = Some c.
Proof. induction s as [|a s IH]; [done|]. rewrite app_cons. exact IH. Qed.

Lemma endswith_app (s suffix : string) : PyStr.endswith (s +:+ suffix) suffix = true.
Proof.
  unfold PyStr.endswith. rewrite length_app.
  replace (String.length s + String.length suffix - String.length suffix)%nat
    with (String.length s) by lia.
  rewrite drop_app_length, String.eqb_refl. cbn. apply Nat.leb_le. lia.
Qed.

(** [s[-(1 + len(rest))]] is the character standing before [rest]. *)
Lemma index_from_end (s rest : string) (c : ascii) :
  PyStr.index (s +:+ String c rest) (- Z.of_nat (S (String.length rest))) = Ok c.
Proof.
  unfold PyStr.index. rewrite length_app. cbn [String.length].
  set (n := Z.of_nat (String.length s + S (String.length rest))).
  assert (Hj : - Z.of_nat (S (String.length rest)) + n = Z.of_nat (String.length s))
    by (unfold n; lia).
  destruct (Z.ltb_spec (- Z.of_nat (S (String.length rest))) 0) as [_|]; [|lia].
  rewrite Hj.
  destruct (Z.ltb_spec (Z.of_nat (String.length s)) 0) as [|_]; [lia|].
  destruct (Z.leb_spec n (Z.of_nat (String.length s))) as [|_]; [unfold n in *; lia|].
  cbn [orb]. by rewrite Nat2Z.id, get_app_length.
Qed.

Lemma rfind_nat_lacks (c : ascii) (s : string) : lacks c s → PyStr.rfind_nat c s = None.
Proof.
  unfold lacks. induction s as [|a s IH]; cbn; [done|].
  intros [Ha Hs]%andb_true_iff. rewrite (IH Hs).
  by destruct (Ascii.eqb a c).
Qed.

Lemma rfind_nat_app (c : ascii) (s t : string) :
  PyStr.rfind_nat c (s +:+ t) =
    match PyStr.rfind_nat c t with
    | Some i => Some (String.length s + i)%nat
    | None => PyStr.rfind_nat c s
    end.
Proof.
  induction s as [|a s IH].
  - rewrite app_nil. by destruct (PyStr.rfind_nat c t).
  - rewrite app_cons. cbn [PyStr.rfind_nat String.length]. rewrite IH.
    by destruct (PyStr.rfind_nat c t).
Qed.

Lemma lacks_app (c : ascii) (s t : string) : lacks c s → lacks c t → lacks c (s +:+ t).
Proof.
  unfold lacks. induction s as [|a s IH]; [done|].
  rewrite app_cons. cbn [PyStr.all_chars].
  intros [Ha Hs]%andb_true_iff Ht. rewrite Ha. cbn. by apply IH.
Qed.

(** The base name of [dir/name] is [name]. *)
Lemma basename_join (dir name : string) :
  lacks "/" name → OsPath.basename (dir +:+ "/" +:+ name) = name.
Proof.
  intros Hname. unfold OsPath.basename, PyStr.rfind, OsPath.sep.
  rewrite rfind_nat_app, app_cons, app_nil.
  cbn [PyStr.rfind_nat]. rewrite (rfind_nat_lacks _ _ Hname).
  change (Ascii.eqb "/" "/") with true. cbv iota.
  replace (Z.to_nat (Z.of_nat (String.length dir + 0) + 1))
    with (String.length (dir +:+ "/")) by (rewrite length_app; cbn; lia).
  rewrite <- (app_nil name) at 1. rewrite <- app_cons, <- app_assoc_str.
  apply drop_app_length.
Qed.

Lemma basename_plain (name : string) : lacks "/" name → OsPath.basename name = name.
Proof.
  intros Hname. unfold OsPath.basename, PyStr.rfind, OsPath.sep.
  rewrite (rfind_nat_lacks _ _ Hname). cbn. apply drop_0.
Qed.

(** [splitext] removes the extension of a name [stem.ext] whose stem is not
    made of dots only. *)
Lemma splitext_stem (stem ext : string) :
  lacks "/" stem → lacks "/" ext → lacks "." ext →
  PyStr.all_chars (Ascii.eqb ".") stem = false →
  OsPath.splitext (stem +:+ "." +:+ ext) = (stem, "." +:+ ext).
Proof.
  intros Hs He Hd Hdots. unfold OsPath.splitext, PyStr.rfind, OsPath.sep, OsPath.extsep.
  assert (Hsep : PyStr.rfind_nat "/" (stem +:+ "." +:+ ext) = None).
  { apply rfind_nat_lacks, lacks_app; [done|]. by apply (lacks_app _ "."). }
  assert (Hdot : PyStr.rfind_nat "." (stem +:+ "." +:+ ext)
                 = Some (String.length stem + 0)%nat).
  { rewrite rfind_nat_app, app_cons, app_nil.
    cbn [PyStr.rfind_nat]. by rewrite (rfind_nat_lacks _ _ Hd). }
  rewrite Hsep, Hdot, Nat.add_0_r.
  destruct (Z.ltb_spec (-1) (Z.of_nat (String.length stem))) as [_|]; [|lia].
  rewrite Nat2Z.id. unfold PyStr.slice. cbn [Z.add Z.to_nat].
  rewrite drop_0, Nat.sub_0_r, take_app_length, drop_app_length.
  by rewrite Hdots.
Qed.

Lemma to_int_decimal_digit (r : Z) :
  0 ≤ r ≤ 9 → PyStr.to_int (String (Spec.decimal_digit r) "") 10 = Ok r.
Proof.
  intros Hr.
  assert (r = 0 ∨ r = 1 ∨ r = 2 ∨ r = 3 ∨ r = 4 ∨ r = 5 ∨ r = 6 ∨ r = 7 ∨ r = 8 ∨ r = 9)
    as Hcases by lia.
  repeat (destruct Hcases as [->|Hcases]; [reflexivity|]). by subst.
Qed.

Lemma py_bind_ret_unit (m : py unit) (fs : filesystem) :
  (m ≫= λ _, mret ()) fs = m fs.
Proof. unfold mbind, py_bind. by destruct (m fs) as [fs' [[]|e]]. Qed.

Section naming.
Context `{Collaborators}.

Lemma round_number_of_file (stem : string) (c x : ascii) (r : Z) :
  PyStr.to_int (String c "") 10 = Ok r →
  round_number_of (stem +:+ String c (String x ".czi")) = Ok r.
Proof.
  intros Hc. unfold round_number_of.
  assert (Hi : PyStr.index (stem +:+ String c (String x ".czi")) (-6) = Ok c)
    by exact (index_from_end stem (String x ".czi") c).
  by rewrite Hi.
Qed.

(** One file of the batch loop: the round number is the digit standing
    sixth from the end of the name. *)
Lemma main_one_file input_dir output_dir dtype (stem : string) (c x : ascii) (r : Z) fs :
  PyStr.to_int (String c "") 10 = Ok r →
  let file := stem +:+ String c (String x ".czi") in
  main input_dir output_dir dtype [file] fs =
    export_czi (OsPath.join input_dir file) output_dir (Some r) dtype fs.
Proof.
  intros Hc file. unfold main. cbn [for_each].
  rewrite py_bind_ret_unit.
  assert (Hend : PyStr.endswith file ".czi" = true).
  { unfold file.
    replace (stem +:+ String c (String x ".czi"))
      with ((stem +:+ String c (String x "")) +:+ ".czi")
      by (by rewrite app_assoc_str, !app_cons, app_nil).
    apply endswith_app. }
  rewrite Hend. unfold mbind, py_bind, lift.
  pose proof (round_number_of_file stem c x r Hc) as Hround. fold file in Hround.
  by rewrite Hround.
Qed.

(** A channel whose steps complete is written under the name built from
    the prefix and the channel number of its short name. *)
Lemma export_channel_named output_dir base_name dtype image cm short_name n out
    colormap fs :
  cm !! "ShortName" = Some short_name →
  SHORTNAME_MAPPING !! short_name = Some n →
  calibrate dtype image cm = Ok out →
  make_colormap dtype cm = Ok colormap →
  export_channel output_dir base_name dtype image cm fs =
    (written fs (OsPath.join output_dir (output_name base_name n)) out colormap, Ok ()).
Proof.
  intros Hname Hn Hcal Hmap. rewrite export_channel_run, Hcal, Hmap.
  unfold channel_number_of. by rewrite Hname, Hn.
Qed.

(** C7: with round number 2 and short name AF647 the file is named
    [R2C7.tif]; for every round number and every short name of the table the
    name is R, the round, C, the channel number of the table, [.tif]; and the
    batch loop takes the round from the sixth character from the end of the
    input name. *)
Theorem C7_round_and_channel_name (cm : channel_metadata) :
  cm !! "ShortName" = Some "AF647" →
  channel_number_of cm = Ok 7 ∧
  (∀ czi_filename, output_name (base_name_of (Some 2) czi_filename) 7 = "R2C7.tif") ∧
  (∀ output_dir czi_filename dtype image out colormap fs,
     calibrate dtype image cm = Ok out →
     make_colormap dtype cm = Ok colormap →
     export_channel output_dir (base_name_of (Some 2) czi_filename) dtype image cm fs =
       (written fs (OsPath.join output_dir "R2C7.tif") out colormap, Ok ())) ∧
  (∀ (r n : Z) czi_filename,
     output_name (base_name_of (Some r) czi_filename) n =
       "R" +:+ PyStr.of_int r +:+ "C" +:+ PyStr.of_int n +:+ ".tif") ∧
  (∀ (cm' : channel_metadata) short_name n r output_dir czi_filename dtype image out
     colormap fs,
     cm' !! "ShortName" = Some short_name →
     SHORTNAME_MAPPING !! short_name = Some n →
     calibrate dtype image cm' = Ok out →
     make_colormap dtype cm' = Ok colormap →
     export_channel output_dir (base_name_of (Some r) czi_filename) dtype image cm' fs =
       (written fs
          (OsPath.join output_dir
             ("R" +:+ PyStr.of_int r +:+ "C" +:+ PyStr.of_int n +:+ ".tif"))
          out colormap, Ok ())) ∧
  (∀ input_dir output_dir dtype (stem : string) (x : ascii) (r : Z) fs,
     0 ≤ r ≤ 9 →
     let file := stem +:+ String (Spec.decimal_digit r) (String x ".czi") in
     PyStr.index file (-6) = Ok (Spec.decimal_digit r) ∧
     round_number_of file = Ok r ∧
     main input_dir output_dir dtype [file] fs =
       export_czi (OsPath.join input_dir file) output_dir (Some r) dtype fs).
Proof.
  intros Hname.
  assert (Hpattern : ∀ (r n : Z) czi_filename,
     output_name (base_name_of (Some r) czi_filename) n =
       "R" +:+ PyStr.of_int r +:+ "C" +:+ PyStr.of_int n +:+ ".tif").
  { intros r n f. unfold output_name, base_name_of. by rewrite app_assoc_str. }
  split; [unfold channel_number_of; by rewrite Hname|].
  split; [done|].
  split.
  { intros output_dir f dtype image out colormap fs Hcal Hmap.
    by rewrite (export_channel_named _ _ _ _ _ "AF647" 7 out colormap). }
  split; [done|].
  split.
  { intros cm' short_name n r output_dir f dtype image out colormap fs Hs Hn Hcal Hmap.
    rewrite <- (Hpattern r n f). by apply (export_channel_named _ _ _ _ _ short_name). }
  intros input_dir output_dir dtype stem x r fs Hr file.
  pose proof (to_int_decimal_digit r Hr) as Hd.
  split; [apply (index_from_end stem (String x ".czi"))|].
  split; [by apply round_number_of_file|].
  by apply main_one_file.
Qed.

(** C10: without a round number the prefix is the base name of the input
    file with its extension removed, so a channel of [dir/stem.ext] is
    written as [stemC{channel}.tif]. *)
Theorem C10_prefix_is_input_stem (dir stem ext : string) :
  lacks "/" stem → lacks "/" ext → lacks "." ext →
  PyStr.all_chars (Ascii.eqb ".") stem = false →
  (∀ czi_filename,
     base_name_of None czi_filename =
       (OsPath.splitext (OsPath.basename czi_filename)).1) ∧
  base_name_of None (dir +:+ "/" +:+ stem +:+ "." +:+ ext) = stem ∧
  base_name_of None (stem +:+ "." +:+ ext) = stem ∧
  (∀ (n : Z), output_name (base_name_of None (dir +:+ "/" +:+ stem +:+ "." +:+ ext)) n =
     stem +:+ "C" +:+ PyStr.of_int n +:+ ".tif") ∧
  (∀ (cm : channel_metadata) short_name n output_dir dtype image out colormap fs,
     cm !! "ShortName" = Some short_name →
     SHORTNAME_MAPPING !! short_name = Some n →
     calibrate dtype image cm = Ok out →
     make_colormap dtype cm = Ok colormap →
     export_channel output_dir
       (base_name_of None (dir +:+ "/" +:+ stem +:+ "." +:+ ext)) dtype image cm fs =
       (written fs (OsPath.join output_dir (stem +:+ "C" +:+ PyStr.of_int n +:+ ".tif"))
          out colormap, Ok ())).
Proof.
  intros Hs He Hd Hdots.
  assert (Hname : lacks "/" (stem +:+ "." +:+ ext)).
  { apply lacks_app; [done|]. by apply (lacks_app _ "."). }
  assert (Hbase : base_name_of None (dir +:+ "/" +:+ stem +:+ "." +:+ ext) = stem).
  { unfold base_name_of. rewrite basename_join by done. by rewrite splitext_stem. }
  split; [done|]. split; [done|].
  split; [unfold base_name_of; rewrite basename_plain by done; by rewrite splitext_stem|].
  split; [intros n; by rewrite Hbase|].
  intros cm short_name n output_dir dtype image out colormap fs Hsn Hn Hcal Hmap.
  rewrite Hbase. by apply (export_channel_named _ _ _ _ _ short_name).
Qed.

End naming.

(** ** Colormap ramps *)

Lemma nondecreasing_head (x : Z) (row : list Z) :
  Check.nondecreasing (x :: row) = true → ∀ y, y ∈ row → x ≤ y.
Proof.
  revert x. induction row as [|z row IH]; intros x Hnd y Hy.
  - by apply elem_of_nil in Hy.
  - cbn in Hnd. apply andb_true_iff in Hnd as [Hxz Hrest].
    apply Z.leb_le in Hxz.
    apply elem_of_cons in Hy as [->|Hy]; [done|].
    specialize (IH z Hrest y Hy). lia.
Qed.

Lemma nondecreasing_tail (x : Z) (row : list Z) :
  Check.nondecreasing (x :: row) = true → Check.nondecreasing row = true.
Proof. destruct row; [done|]. cbn. by intros [_ ?]%andb_true_iff. Qed.

Lemma nondecreasing_lookup (row : list Z) :
  Check.nondecreasing row = true →
  ∀ (i j : nat) (x y : Z), (i ≤ j)%nat → row !! i = Some x → row !! j = Some y → x ≤ y.
Proof.
  induction row as [|z row IH]; intros Hnd i j x y Hij Hi Hj; [done|].
  destruct i as [|i], j as [|j]; cbn in Hi, Hj.
  - injection Hi as <-. injection Hj as <-. lia.
  - injection Hi as <-. apply (nondecreasing_head _ _ Hnd).
    by apply list_elem_of_lookup_2 in Hj.
  - lia.
  - apply (IH (nondecreasing_tail _ _ Hnd) i j); [lia|done..].
Qed.

Lemma all_ramps : forallb Check.ramp Check.bytes = true.
Proof. vm_compute. reflexivity. Qed.

Lemma linspace_is_ramp (top : Z) :
  0 ≤ top ≤ 255 → Spec.is_ramp (Np.linspace_uint8 0 top 256) top.
Proof.
  intros Htop.
  assert (Hin : top ∈ Check.bytes).
  { unfold Check.bytes. apply list_elem_of_fmap. exists (Z.to_nat top).
    split; [lia|]. apply elem_of_seq. lia. }
  pose proof all_ramps as Hall. rewrite forallb_forall in Hall.
  apply list_elem_of_In, Hall in Hin. unfold Check.ramp in Hin.
  apply andb_true_iff in Hin as [Hin Hnd].
  apply andb_true_iff in Hin as [Hin Hlast].
  apply andb_true_iff in Hin as [Hlen Hfirst].
  apply Nat.eqb_eq in Hlen. apply bool_decide_eq_true in Hfirst, Hlast.
  repeat split; [done..|]. by apply nondecreasing_lookup.
Qed.

Lemma all_hex_pairs :
  forallb (λ a, forallb (Check.hex_pair a) Check.all_ascii) Check.all_ascii = true.
Proof. vm_compute. reflexivity. Qed.

Lemma elem_of_all_ascii (a : ascii) : a ∈ Check.all_ascii.
Proof.
  unfold Check.all_ascii. apply list_elem_of_fmap. exists (nat_of_ascii a).
  split; [by rewrite ascii_nat_embedding|].
  apply elem_of_seq. pose proof (nat_ascii_bounded a). lia.
Qed.

Lemma to_int_hex_byte (a b : ascii) (v : Z) :
  Spec.hex_byte a b = Some v →
  PyStr.to_int (String a (String b "")) 16 = Ok v ∧ 0 ≤ v ≤ 255.
Proof.
  intros Hv. pose proof all_hex_pairs as Hall. rewrite forallb_forall in Hall.
  specialize (Hall a (proj1 (list_elem_of_In _ _) (elem_of_all_ascii a))).
  rewrite forallb_forall in Hall.
  specialize (Hall b (proj1 (list_elem_of_In _ _) (elem_of_all_ascii b))).
  unfold Check.hex_pair in Hall. rewrite Hv in Hall.
  destruct (PyStr.to_int _ 16) as [z|]; [|done].
  apply andb_true_iff in Hall as [Hall Hhi]. apply andb_true_iff in Hall as [Hz Hlo].
  apply Z.eqb_eq in Hz. apply Z.leb_le in Hlo, Hhi. by subst.
Qed.

Lemma hex_to_rgb_digits (r1 r2 g1 g2 b1 b2 : ascii) (rest : string) (r g b : Z) :
  Spec.hex_byte r1 r2 = Some r → Spec.hex_byte g1 g2 = Some g →
  Spec.hex_byte b1 b2 = Some b →
  hex_to_rgb (String r1 (String r2 (String g1 (String g2 (String b1 (String b2 rest))))))
    = Ok (r, g, b).
Proof.
  intros [Hr _]%to_int_hex_byte [Hg _]%to_int_hex_byte [Hb _]%to_int_hex_byte.
  unfold hex_to_rgb, PyStr.slice.
  cbn [PyStr.drop PyStr.take Nat.sub].
  by rewrite Hr, Hg, Hb.
Qed.

Lemma hex_digit_not_hash (a : ascii) : is_Some (Spec.hex_digit a) → Ascii.eqb a "#" = false.
Proof.
  intros [v Hv]. apply Ascii.eqb_neq. intros ->. vm_compute in Hv. discriminate Hv.
Qed.

(** C4: for an ARGB colour of eight hexadecimal digits (with or without the
    leading [#]), the 8-bit colormap has three rows of 256 entries; each row
    starts at 0, ends at the red, green or blue byte the digits spell (the
    two alpha digits play no part) and never decreases. *)
Theorem C4_colormap_ramps (cm : channel_metadata)
    (a1 a2 r1 r2 g1 g2 b1 b2 : ascii) (r g b : Z) :
  is_Some (Spec.hex_digit a1) → is_Some (Spec.hex_digit a2) →
  Spec.hex_byte r1 r2 = Some r →
  Spec.hex_byte g1 g2 = Some g →
  Spec.hex_byte b1 b2 = Some b →
  let argb :=
    String a1 (String a2 (String r1 (String r2 (String g1 (String g2
      (String b1 (String b2 ""))))))) in
  cm !! "Color" = Some argb ∨ cm !! "Color" = Some (String "#" argb) →
  ∃ row_r row_g row_b : list Z,
    make_colormap (DType uint8) cm = Ok (Some [row_r; row_g; row_b]) ∧
    row_r = Np.linspace_uint8 0 r 256 ∧
    row_g = Np.linspace_uint8 0 g 256 ∧
    row_b = Np.linspace_uint8 0 b 256 ∧
    Spec.is_ramp row_r r ∧ Spec.is_ramp row_g g ∧ Spec.is_ramp row_b b.
Proof.
  intros Ha1 Ha2 Hr Hg Hb argb Hcolor.
  pose proof (hex_digit_not_hash a1 Ha1) as Hhash.
  assert (Hstrip : PyStr.drop 2 (PyStr.lstrip "#" (default "#FFFFFFFF" (cm !! "Color")))
                   = String r1 (String r2 (String g1 (String g2 (String b1 (String b2 "")))))).
  { destruct Hcolor as [-> | ->]; unfold argb, default, id; cbn [PyStr.lstrip].
    - by rewrite Hhash.
    - change (Ascii.eqb "#" "#") with true. cbv iota. by rewrite Hhash. }
  exists (Np.linspace_uint8 0 r 256), (Np.linspace_uint8 0 g 256),
         (Np.linspace_uint8 0 b 256).
  split.
  { unfold make_colormap, synthesize_colormap. cbn [dtype_is].
    rewrite bool_decide_eq_true_2 by done.
    rewrite Hstrip, (hex_to_rgb_digits _ _ _ _ _ _ _ r g b) by done. reflexivity. }
  do 3 (split; [done|]).
  apply to_int_hex_byte in Hr as [_ Hr], Hg as [_ Hg], Hb as [_ Hb].
  repeat split; by apply linspace_is_ramp.
Qed.

(** ** The half display range on 8-bit planes *)

Lemma all_rescaled_pixels : forallb Check.rescale_pixel Check.bytes = true.
Proof. vm_compute. reflexivity. Qed.

Lemma rescale_pixel_uint8_half (x : Z) :
  0 ≤ x ≤ 255 →
  Skimage.rescale_pixel_uint8 128 255 (SInt x) = SInt (Spec.rescale_uint8 128 255 x).
Proof.
  intros Hx.
  assert (Hin : x ∈ Check.bytes).
  { unfold Check.bytes. apply list_elem_of_fmap. exists (Z.to_nat x).
    split; [lia|]. apply elem_of_seq. lia. }
  pose proof all_rescaled_pixels as Hall. rewrite forallb_forall in Hall.
  apply list_elem_of_In, Hall in Hin. unfold Check.rescale_pixel in Hin.
  destruct (Skimage.rescale_pixel_uint8 128 255 (SInt x)) as [z|]; [|done].
  apply Z.eqb_eq in Hin. by subst.
Qed.

Lemma rescale_plane_half (zs : list (list Z)) :
  Forall (Forall (λ x, 0 ≤ x ≤ 255)) zs →
  Skimage.rescale_intensity_uint8 (uint8_plane zs) (PyInt 128, PyInt 255) =
    uint8_plane (map (map (Spec.rescale_uint8 128 255)) zs).
Proof.
  intros Hzs. unfold Skimage.rescale_intensity_uint8, uint8_plane. cbn.
  f_equal. rewrite !map_map.
  apply map_ext_Forall. eapply Forall_impl; [exact Hzs|].
  intros row Hrow. cbn beta. rewrite !map_map.
  apply map_ext_Forall. eapply Forall_impl; [exact Hrow|].
  intros x Hx. by apply rescale_pixel_uint8_half.
Qed.

Lemma spec_rescale_low (x : Z) : x ≤ 127 → Spec.rescale_uint8 128 255 x = 0.
Proof. intros Hx. unfold Spec.rescale_uint8. by rewrite Z.max_r, Z.min_l by lia. Qed.

Lemma spec_rescale_high (x : Z) : 255 ≤ x → Spec.rescale_uint8 128 255 x = 255.
Proof.
  intros Hx. unfold Spec.rescale_uint8. by rewrite Z.max_l, Z.min_r by lia.
Qed.

Lemma spec_rescale_between (x : Z) :
  128 ≤ x ≤ 255 → Spec.rescale_uint8 128 255 x = 255 * (x - 128) / 127.
Proof.
  intros Hx. unfold Spec.rescale_uint8. by rewrite Z.max_l, Z.min_l by lia.
Qed.

Lemma spec_rescale_mono (x y : Z) :
  x ≤ y → Spec.rescale_uint8 128 255 x ≤ Spec.rescale_uint8 128 255 y.
Proof.
  intros Hxy. unfold Spec.rescale_uint8. apply Z.div_le_mono; lia.
Qed.

Section half_range.
Context `{Collaborators}.

(** C2: on a uint8 plane with display range (0.5, 1.0) the bounds become
    128 and 255 by rounding (127.5 rounds to the even 128), and the plane is
    rescaled pixel by pixel along the linear ramp between them, rounded
    down: every value up to 127 becomes 0, the value 255 (and anything
    above) becomes 255, values in between are interpolated, values outside
    are clipped. *)
Theorem C2_half_range_uint8 (cm : channel_metadata) (dtype : dtype_value)
    (zs : list (list Z)) :
  Forall (Forall (λ x, 0 ≤ x ≤ 255)) zs →
  (∀ img r, nd_dtype img = uint8 →
            rescale_intensity img r = Ok (Skimage.rescale_intensity_uint8 img r)) →
  display_min_of cm = Ok 0.5%float →
  display_max_of cm = Ok 1%float →
  gamma_of cm = Ok 1%float →
  display_bounds uint8 0.5 1 = Ok (PyInt 128, PyInt 255) ∧
  rescale_step (uint8_plane zs) 0.5 1 =
    Ok (uint8_plane (map (map (Spec.rescale_uint8 128 255)) zs)) ∧
  calibrate dtype (uint8_plane zs) cm =
    set_dtype dtype (uint8_plane (map (map (Spec.rescale_uint8 128 255)) zs)) ∧
  (∀ x, x ≤ 127 → Spec.rescale_uint8 128 255 x = 0) ∧
  (∀ x, 255 ≤ x → Spec.rescale_uint8 128 255 x = 255) ∧
  (∀ x, 128 ≤ x ≤ 255 → Spec.rescale_uint8 128 255 x = 255 * (x - 128) / 127) ∧
  (∀ x y, x ≤ y → Spec.rescale_uint8 128 255 x ≤ Spec.rescale_uint8 128 255 y).
Proof.
  intros Hzs Hlib Hlo Hhi Hg.
  assert (Hstep : rescale_step (uint8_plane zs) 0.5 1 =
    Ok (uint8_plane (map (map (Spec.rescale_uint8 128 255)) zs))).
  { unfold rescale_step.
    change (PyFloat.neq 0.5 0 || PyFloat.neq 1 1) with true. cbv iota.
    change (display_bounds (nd_dtype (uint8_plane zs)) 0.5 1)
      with (Ok (A := py_num * py_num) (PyInt 128, PyInt 255)).
    cbn [mbind result_bind]. rewrite Hlib by done.
    by rewrite rescale_plane_half. }
  split; [reflexivity|]. split; [done|]. split.
  { rewrite (calibrate_unfold _ _ _ _ _ _ Hlo Hhi Hg), Hstep. cbn [mbind result_bind].
    by rewrite gamma_step_skipped. }
  split; [apply spec_rescale_low|]. split; [apply spec_rescale_high|].
  split; [apply spec_rescale_between | apply spec_rescale_mono].
Qed.

End half_range.

(** ** The claims on the example container *)

Lemma demo_rescale_is_model (img : ndarray) (r : py_num * py_num) :
  nd_dtype img = uint8 →
  Demo.rescale_intensity img r = Ok (Skimage.rescale_intensity_uint8 img r).
Proof. intros Hd. unfold Demo.rescale_intensity. by rewrite bool_decide_eq_true_2. Qed.

Lemma demo_rescale_keeps_dtype (img : ndarray) (r : py_num * py_num) (out : ndarray) :
  Demo.rescale_intensity img r = Ok out → nd_dtype out = nd_dtype img.
Proof.
  unfold Demo.rescale_intensity. destruct (bool_decide _); [|done].
  by intros [= <-].
Qed.

Lemma demo_gamma_keeps_dtype (img : ndarray) (g : float) (out : ndarray) :
  Demo.adjust_gamma img g = Ok out → nd_dtype out = nd_dtype img.
Proof. done. Qed.

Lemma C1_witness :
  calibrate (H := Demo.collaborators) (DType uint16) Demo.plane1 Demo.channel_full
    = Demo.img_as_uint Demo.plane1.
Proof.
  destruct (C1_identity_transform (H := Demo.collaborators) (DType uint16) Demo.plane1
              Demo.channel_full 0 1 1) as (_ & _ & -> & -> & _);
    reflexivity.
Defined.

Lemma C2_witness :
  calibrate (H := Demo.collaborators) (DType uint8) Demo.plane0 Demo.channel0
    = Ok (uint8_plane [[0; 0; 0]; [0; 144; 255]]).
Proof.
  destruct (C2_half_range_uint8 (H := Demo.collaborators) Demo.channel0 (DType uint8)
              [[0; 100; 127]; [128; 200; 255]]) as (_ & _ & Hcal & _).
  - repeat constructor; lia.
  - exact demo_rescale_is_model.
  - reflexivity.
  - reflexivity.
  - reflexivity.
  - exact Hcal.
Defined.

Lemma C3_witness :
  rescale_step (H := Demo.collaborators) Demo.plane0 0.5 1
    = Demo.rescale_intensity Demo.plane0 (PyInt 128, PyInt 255).
Proof.
  destruct (C3_bounds_by_source_dtype (H := Demo.collaborators) Demo.plane0 0.5 1)
    as [Hint _]; [reflexivity|].
  destruct (Hint 255) as [_ ->]; [by left | reflexivity].
Defined.

(** The invariant fails for a 32-bit integer plane (pixel type Gray32): the
    bounds 0.5 and 1.0 reach the rescale as they are. *)
Lemma C3_counterexample_int32 :
  display_bounds int32 0.5 1 = Ok (PyFloatNum 0.5, PyFloatNum 1) ∧
  ¬ bounds_rescaled_for_every_dtype.
Proof.
  split; [reflexivity|]. intros Hall.
  destruct (Hall int32 0.5%float 1%float) as (m & Hm & Hb); [reflexivity|].
  injection Hm as <-. vm_compute in Hb. discriminate Hb.
Qed.

Lemma C4_witness :
  ∃ row_r row_g row_b : list Z,
    make_colormap (DType uint8) Demo.channel0 = Ok (Some [row_r; row_g; row_b]) ∧
    row_r !! 255%nat = Some 0 ∧ row_g !! 255%nat = Some 255 ∧ row_b !! 255%nat = Some 128.
Proof.
  destruct (C4_colormap_ramps Demo.channel0 "F" "F" "0" "0" "F" "F" "8" "0" 0 255 128)
    as (row_r & row_g & row_b & Hmap & _ & _ & _ & Hr & Hg & Hb);
    [by eexists | by eexists | reflexivity | reflexivity | reflexivity
     | right; reflexivity |].
  exists row_r, row_g, row_b.
  destruct Hr as (_ & _ & Hr & _), Hg as (_ & _ & Hg & _), Hb as (_ & _ & Hb & _).
  by repeat split.
Defined.

Lemma C5_witness : make_colormap (DType uint16) Demo.channel0 = Ok None.
Proof.
  destruct (C5_no_colormap_unless_uint8 (H := Demo.collaborators) (DType uint16)
              Demo.channel0) as [Hmap _]; [reflexivity | exact Hmap].
Defined.


Lemma C7_witness :
  channel_number_of Demo.channel0 = Ok 7 ∧
  output_name (base_name_of (Some 2) "/data/S1_R2a.czi") 7 = "R2C7.tif".
Proof.
  destruct (C7_round_and_channel_name (H := Demo.collaborators) Demo.channel0)
    as (Hn & Hname & _); [reflexivity|].
  split; [exact Hn | apply Hname].
Defined.

Lemma C9_witness :
  resolve_dtype "float" Demo.scan = DText "float" ∧
  make_colormap (resolve_dtype "float" Demo.scan) Demo.channel0 = Ok None.
Proof.
  destruct (C9_unrecognized_dtype (H := Demo.collaborators) "float" Demo.scan
              Demo.plane0 Demo.channel0) as (Hres & _ & Hmap & _);
    [done | done | done | exact demo_rescale_keeps_dtype
     | exact demo_gamma_keeps_dtype |].
  by split.
Defined.

Lemma C10_witness : base_name_of None "/data/S1_R2a.czi" = "S1_R2a".
Proof.
  destruct (C10_prefix_is_input_stem (H := Demo.collaborators) "/data" "S1_R2a" "czi")
    as (_ & Hbase & _); [reflexivity..|exact Hbase].
Defined.

(** ** Runs of the script on the example container *)

Example run_round_2_default :
  let r := export_czi (H := Demo.collaborators) "/data/S1_R2a.czi" (Some "out") (Some 2)
             "default" Demo.empty_disk in
  r.2 = Ok () ∧
  tiff_image <$> fs_files r.1 !! "out/R2C7.tif"
    = Some (uint8_plane [[0; 0; 0]; [0; 144; 255]]) ∧
  tiff_image <$> fs_files r.1 !! "out/R2C2.tif" = Some Demo.plane1 ∧
  size (fs_files r.1) = 2%nat.
Proof. vm_compute. done. Qed.

Example run_batch_uint16 :
  let r := main (H := Demo.collaborators) "/data" None "uint16"
             ["S1_R2a.czi"; "notes.txt"] Demo.empty_disk in
  r.2 = Ok () ∧
  tiff_colormap <$> fs_files r.1 !! "/data/R2C7.tif" = Some None ∧
  tiff_colormap <$> fs_files r.1 !! "/data/R2C2.tif" = Some None.
Proof. vm_compute. done. Qed.

Example run_without_round :
  let r := export_czi (H := Demo.collaborators) "/data/S1_R2a.czi" None None "float"
             Demo.empty_disk in
  r.2 = Ok () ∧
  tiff_colormap <$> fs_files r.1 !! "/data/S1_R2aC7.tif" = Some None ∧
  nd_dtype <$> (tiff_image <$> fs_files r.1 !! "/data/S1_R2aC2.tif") = Some uint8.
Proof. vm_compute. done. Qed.

Example run_relative_name_fails :
  (export_czi (H := Demo.collaborators) "S1_R2a.czi" None (Some 2) "uint8"
     Demo.empty_disk).2 = Raise (FileNotFoundError "").
Proof. vm_compute. done. Qed.
Example basename_ex : OsPath.basename "/data/scans/S1_R2a.czi" = "S1_R2a.czi".
Proof. reflexivity. Qed.
Example dirname_ex : OsPath.dirname "/data/scans/S1_R2a.czi" = "/data/scans".
Proof. reflexivity. Qed.
Example splitext_ex : OsPath.splitext "S1_R2a.czi" = ("S1_R2a", ".czi").
Proof. reflexivity. Qed.
Example splitext_dotfile : OsPath.splitext "..czi" = ("..czi", "").
Proof. reflexivity. Qed.
Example join_ex : OsPath.join "out" "R2C7.tif" = "out/R2C7.tif".
Proof. reflexivity. Qed.
Example to_int_hex : PyStr.to_int "fF" 16 = Ok 255.
Proof. reflexivity. Qed.
Example to_int_empty : PyStr.to_int "" 16 = Raise ValueError.
Proof. reflexivity. Qed.
Example to_int_digit : PyStr.to_int "2" 10 = Ok 2.
Proof. reflexivity. Qed.
Example index_neg : PyStr.index "S1_R2a.czi" (-6) = Ok "2"%char.
Proof. reflexivity. Qed.
Example index_short : PyStr.index "a.czi" (-6) = Raise IndexError.
Proof. reflexivity. Qed.
Example round_half_even_127_5 : PyFloat.round_to_int (0.5 * 255)%float = Ok 128.
Proof. reflexivity. Qed.
Example round_half_even_126_5 : PyFloat.round_to_int 126.5%float = Ok 126.
Proof. reflexivity. Qed.
Example round_255 : PyFloat.round_to_int (1 * 255)%float = Ok 255.
Proof. reflexivity. Qed.
Example linspace_endpoints :
  Np.linspace_uint8 0 200 256 !! 0%nat = Some 0 ∧
  Np.linspace_uint8 0 200 256 !! 255%nat = Some 200 ∧
  length (Np.linspace_uint8 0 200 256) = 256%nat.
Proof. vm_compute. done. Qed.

(** * Further properties of the script *)

(** ** Loops, again *)


Lemma for_each_preserves {A} (R : filesystem → filesystem → Prop)
    (xs : list A) (body : A → py unit) :
  (∀ fs, R fs fs) →
  (∀ fs1 fs2 fs3, R fs1 fs2 → R fs2 fs3 → R fs1 fs3) →
  (∀ x fs, R fs (body x fs).1) →
  ∀ fs, R fs (for_each xs body fs).1.
Proof.
  intros Hrefl Htrans Hbody. induction xs as [|x xs IH]; intros fs; [apply Hrefl|].
  cbn. unfold mbind, py_bind. specialize (Hbody x fs).
  destruct (body x fs) as [fs1 [[]|e]]; [|done].
  eapply Htrans; [exact Hbody | apply IH].
Qed.

(** When a loop returns normally, the body returned normally on every item,
    and what it produced is kept up to [R]. *)
Lemma for_each_ok_each {A} (R : filesystem → filesystem → Prop)
    (xs : list A) (body : A → py unit) :
  (∀ fs, R fs fs) →
  (∀ fs1 fs2 fs3, R fs1 fs2 → R fs2 fs3 → R fs1 fs3) →
  (∀ x fs, R fs (body x fs).1) →
  ∀ fs fs', for_each xs body fs = (fs', Ok ()) →
  ∀ x, x ∈ xs → ∃ fs1 fs2, body x fs1 = (fs2, Ok ()) ∧ R fs2 fs'.
Proof.
  intros Hrefl Htrans Hbody. induction xs as [|y xs IH]; intros fs fs' Hrun x Hx.
  - by apply elem_of_nil in Hx.
  - cbn in Hrun. unfold mbind, py_bind in Hrun.
    destruct (body y fs) as [fs1 [[]|e]] eqn:Hy; [|done].
    apply elem_of_cons in Hx as [->|Hx].
    + exists fs, fs1. split; [done|].
      pose proof (for_each_preserves R xs body Hrefl Htrans Hbody fs1) as Hrest.
      by rewrite Hrun in Hrest.
    + by apply (IH fs1).
Qed.

(** ** The disk under an export *)

Lemma grows_within_refl (paths : list string) (fs : filesystem) :
  grows_within paths fs fs.
Proof. by repeat split. Qed.

Lemma grows_within_trans (paths : list string) (fs1 fs2 fs3 : filesystem) :
  grows_within paths fs1 fs2 → grows_within paths fs2 fs3 → grows_within paths fs1 fs3.
Proof.
  intros (Hd1 & Hk1 & Hf1) (Hd2 & Hk2 & Hf2). split; [set_solver|]. split.
  - intros p Hp. by apply Hk2, Hk1.
  - intros p Hp. by rewrite Hf2, Hf1.
Qed.

Lemma grows_within_written (paths : list string) (fs : filesystem) (path : string)
    (image : ndarray) (colormap : option colormap_t) :
  path ∈ paths → grows_within paths fs (written fs path image colormap).
Proof.
  intros Hin. split; [done|]. split; cbn.
  - intros p Hp. destruct (decide (path = p)) as [->|Hne].
    + rewrite lookup_insert_eq. by eexists.
    + by rewrite lookup_insert_ne.
  - intros p Hp. rewrite lookup_insert_ne; [done|]. by intros ->.
Qed.

Lemma channel_path_elem (output_dir base_name short_name : string) (n : Z) :
  SHORTNAME_MAPPING !! short_name = Some n →
  OsPath.join output_dir (output_name base_name n) ∈ channel_paths output_dir base_name.
Proof.
  intros Hn. unfold channel_paths. apply list_elem_of_fmap.
  exists (short_name, n). split; [done|]. by apply elem_of_map_to_list.
Qed.

Lemma channel_number_known (cm : channel_metadata) (n : Z) :
  channel_number_of cm = Ok n →
  ∃ short_name, cm !! "ShortName" = Some short_name ∧
                SHORTNAME_MAPPING !! short_name = Some n.
Proof.
  unfold channel_number_of. destruct (cm !! "ShortName") as [s|]; [|done].
  destruct (SHORTNAME_MAPPING !! s) as [k|] eqn:Hk; [|done].
  intros [= <-]. by exists s.
Qed.

Section whole_export.
Context `{Collaborators}.

Lemma channel_loop_for_each output_dir base_name dtype czi channels :
  channel_loop output_dir base_name dtype czi channels =
    for_each channels (channel_body output_dir base_name dtype czi).
Proof. reflexivity. Qed.

(** The two outcomes of one pass of the loop: an exception with the disk
    untouched, or one file written under the name of a table entry. *)
Lemma channel_body_outcome output_dir base_name dtype czi (ch : nat) fs :
  (∃ e, channel_body output_dir base_name dtype czi ch fs = (fs, Raise e)) ∨
  (∃ image cm short_name n out colormap,
     czi_array czi !! ch = Some image ∧
     czi_channels czi !! ch = Some cm ∧
     cm !! "ShortName" = Some short_name ∧
     SHORTNAME_MAPPING !! short_name = Some n ∧
     channel_body output_dir base_name dtype czi ch fs =
       (written fs (OsPath.join output_dir (output_name base_name n)) out colormap,
        Ok ())).
Proof.
  unfold channel_body, mbind, py_bind, lift, list_index.
  destruct (czi_array czi !! ch) as [image|]; [|left; by eexists].
  destruct (czi_channels czi !! ch) as [cm|]; [|left; by eexists].
  rewrite export_channel_run.
  destruct (calibrate dtype image cm) as [out|]; [|left; by eexists].
  destruct (make_colormap dtype cm) as [colormap|]; [|left; by eexists].
  destruct (channel_number_of cm) as [n|] eqn:Hn; [|left; by eexists].
  apply channel_number_known in Hn as (s & Hs & Hn).
  right. by exists image, cm, s, n, out, colormap.
Qed.

Lemma channel_body_grows output_dir base_name dtype czi (ch : nat) fs :
  grows_within (channel_paths output_dir base_name) fs
    (channel_body output_dir base_name dtype czi ch fs).1.
Proof.
  destruct (channel_body_outcome output_dir base_name dtype czi ch fs)
    as [[e ->] | (image & cm & s & n & out & colormap & _ & _ & _ & Hn & ->)].
  - apply grows_within_refl.
  - apply grows_within_written. by apply (channel_path_elem _ _ s).
Qed.






(** X7: when [export_czi] returns normally, every plane of the container
    had a metadata entry whose [ShortName] is a key of the table, and the
    final disk holds a file at the path of each of these channels. *)
Theorem export_czi_ok_every_channel (czi_filename : string)
    (output_dir : option string) (round_number : option Z) (dtype : string)
    (czi : CziFile) (fs fs' : filesystem) :
  czi_open czi_filename = Ok czi →
  export_czi czi_filename output_dir round_number dtype fs = (fs', Ok ()) →
  ∀ ch : nat, (ch < length (czi_array czi))%nat →
    ∃ cm short_name n,
      czi_channels czi !! ch = Some cm ∧
      cm !! "ShortName" = Some short_name ∧
      SHORTNAME_MAPPING !! short_name = Some n ∧
      is_Some (fs_files fs' !!
                 OsPath.join (output_dir_of output_dir czi_filename)
                   (output_name (base_name_of round_number czi_filename) n)).
Proof.
  intros Hopen Hrun ch Hch.
  unfold export_czi in Hrun. fold (output_dir_of output_dir czi_filename) in Hrun.
  set (d := output_dir_of output_dir czi_filename) in *.
  set (b := base_name_of round_number czi_filename) in *.
  unfold mbind, py_bind, Os.path_exists in Hrun.
  match type of Hrun with context [(if negb ?p then _ else _) fs] =>
    destruct ((if negb p then Os.makedirs d else mret ()) fs) as [fs1 [[]|e]] end;
    [|done].
  unfold lift in Hrun. rewrite Hopen, channel_loop_for_each in Hrun.
  destruct (for_each_ok_each (grows_within (channel_paths d b)) _ _
              (grows_within_refl _) (grows_within_trans _)
              (λ x fs0, channel_body_grows d b (resolve_dtype dtype czi) czi x fs0)
              fs1 fs' Hrun ch) as (fs2 & fs3 & Hbody & (_ & Hkeep & _)).
  { apply elem_of_seq. lia. }
  destruct (channel_body_outcome d b (resolve_dtype dtype czi) czi ch fs2)
    as [[e He] | (image & cm & s & n & out & colormap & _ & Hcm & Hs & Hn & He)];
    rewrite He in Hbody; [done|].
  injection Hbody as <-. exists cm, s, n. repeat split; [done..|].
  apply Hkeep. cbn. rewrite lookup_insert_eq. by eexists.
Qed.


(** X4: two channels whose short names give the same channel number are
    written to the same path, and the second file replaces the first: the
    disk is the one the second export alone produces. *)
Theorem same_channel_number_overwrites (output_dir base_name : string)
    (dtype : dtype_value) (image1 image2 : ndarray) (cm1 cm2 : channel_metadata)
    (n : Z) (fs fs1 fs2 : filesystem) :
  channel_number_of cm1 = Ok n →
  channel_number_of cm2 = Ok n →
  export_channel output_dir base_name dtype image1 cm1 fs = (fs1, Ok ()) →
  export_channel output_dir base_name dtype image2 cm2 fs1 = (fs2, Ok ()) →
  export_channel output_dir base_name dtype image2 cm2 fs = (fs2, Ok ()) ∧
  size (fs_files fs2) = size (fs_files fs1).
Proof.
  intros Hn1 Hn2 Hrun1 Hrun2.
  apply export_channel_ok in Hrun1 as (out1 & c1 & k1 & Hcal1 & Hmap1 & Hk1 & ->).
  apply export_channel_ok in Hrun2 as (out2 & c2 & k2 & Hcal2 & Hmap2 & Hk2 & ->).
  rewrite Hn1 in Hk1. rewrite Hn2 in Hk2. injection Hk1 as <-. injection Hk2 as <-.
  split.
  - rewrite export_channel_run, Hcal2, Hmap2, Hn2. unfold written. cbn.
    by rewrite insert_insert_eq.
  - unfold written. cbn. rewrite insert_insert_eq.
    set (path := OsPath.join output_dir (output_name base_name n)).
    destruct (fs_files fs !! path) as [t|] eqn:Hp.
    + by rewrite !map_size_insert_Some.
    + by rewrite !map_size_insert_None.
Qed.

(** X12: on a container whose pixel type is 8-bit the request [default]
    behaves as the request [uint8] (conversion by [img_as_ubyte], colormap
    attached), and on a 16-bit container as the request [uint16]. *)
Theorem default_dtype_follows_container (czi_filename : string)
    (output_dir : option string) (round_number : option Z) (czi : CziFile)
    (fs : filesystem) :
  czi_open czi_filename = Ok czi →
  (czi_dtype czi = uint8 →
   export_czi czi_filename output_dir round_number "default" fs =
   export_czi czi_filename output_dir round_number "uint8" fs) ∧
  (czi_dtype czi = uint16 →
   export_czi czi_filename output_dir round_number "default" fs =
   export_czi czi_filename output_dir round_number "uint16" fs).
Proof.
  intros Hopen.
  split; intros Hd; unfold export_czi, mbind, py_bind, Os.path_exists;
    match goal with |- context [(if negb ?p then ?a else ?b) fs] =>
      destruct ((if negb p then a else b) fs) as [fs1 [[]|e]] end; try done;
    unfold lift; rewrite Hopen; unfold resolve_dtype; cbn; by rewrite Hd.
Qed.

Lemma dirname_plain (name : string) : lacks "/" name → OsPath.dirname name = "".
Proof.
  intros Hname. unfold OsPath.dirname, PyStr.rfind, OsPath.sep.
  by rewrite (rfind_nat_lacks _ _ Hname).
Qed.

(** X8: called with a file name without directory part and without an
    output directory, [export_czi] takes the empty path as output directory
    and fails on creating it, before the container is opened: nothing is
    written. *)
Theorem bare_file_name_without_output_dir_fails (czi_filename : string)
    (round_number : option Z) (dtype : string) (fs : filesystem) :
  lacks "/" czi_filename →
  "" ∉ fs_dirs fs → fs_files fs !! "" = None →
  export_czi czi_filename None round_number dtype fs
    = (fs, Raise (FileNotFoundError "")).
Proof.
  intros Hname Hdir Hfile. unfold export_czi. rewrite (dirname_plain _ Hname).
  unfold mbind, py_bind, Os.path_exists. rewrite Hfile.
  rewrite bool_decide_eq_false_2 by done.
  rewrite bool_decide_eq_false_2 by (by intros [? ?]). reflexivity.
Qed.

(** ** The batch loop *)

Lemma main_cons_czi input_dir output_dir dtype file rest fs :
  PyStr.endswith file ".czi" = true →
  main input_dir output_dir dtype (file :: rest) fs =
    match round_number_of file with
    | Raise e => (fs, Raise e)
    | Ok r =>
        match export_czi (OsPath.join input_dir file) output_dir (Some r) dtype fs with
        | (fs1, Ok _) => main input_dir output_dir dtype rest fs1
        | (fs1, Raise e) => (fs1, Raise e)
        end
    end.
Proof.
  intros Hend. unfold main. cbn [for_each]. rewrite Hend.
  unfold mbind, py_bind, lift.
  destruct (round_number_of file) as [r|e]; [|done].
  by destruct (export_czi _ _ _ _ fs) as [fs1 [[]|e]].
Qed.

Lemma main_cons_other input_dir output_dir dtype file rest fs :
  PyStr.endswith file ".czi" = false →
  main input_dir output_dir dtype (file :: rest) fs =
    main input_dir output_dir dtype rest fs.
Proof. intros Hend. unfold main. cbn [for_each]. by rewrite Hend. Qed.

(** X9: the batch loop acts on the names ending in [.czi] only: the other
    names of the listing change nothing, whatever they are. *)
Theorem main_skips_other_names (input_dir : string) (output_dir : option string)
    (dtype : string) (listing : list string) (fs : filesystem) :
  main input_dir output_dir dtype listing fs =
    main input_dir output_dir dtype
      (List.filter (λ file, PyStr.endswith file ".czi") listing) fs ∧
  (List.filter (λ file, PyStr.endswith file ".czi") listing = [] →
   main input_dir output_dir dtype listing fs = (fs, Ok ())).
Proof.
  assert (Hfilter : ∀ fs0,
    main input_dir output_dir dtype listing fs0 =
      main input_dir output_dir dtype
        (List.filter (λ file, PyStr.endswith file ".czi") listing) fs0).
  { induction listing as [|file rest IH]; intros fs0; [done|].
    cbn [List.filter]. destruct (PyStr.endswith file ".czi") eqn:Hend.
    - rewrite !main_cons_czi by done.
      destruct (round_number_of file) as [r|e]; [|done].
      destruct (export_czi _ _ _ _ fs0) as [fs1 [[]|e]]; [apply IH | done].
    - rewrite main_cons_other by done. apply IH. }
  split; [apply Hfilter|]. intros Hnone. by rewrite Hfilter, Hnone.
Qed.

End whole_export.

Lemma all_single_digits : forallb single_digit_check Check.all_ascii = true.
Proof. vm_compute. reflexivity. Qed.

Lemma single_digit_cases (c : ascii) :
  match Spec.position c "0123456789" with
  | Some v => PyStr.to_int (String c "") 10 = Ok v ∧ 0 ≤ v ≤ 9
  | None => PyStr.to_int (String c "") 10 = Raise ValueError
  end.
Proof.
  pose proof all_single_digits as Hall. rewrite forallb_forall in Hall.
  specialize (Hall c (proj1 (list_elem_of_In _ _) (elem_of_all_ascii c))).
  unfold single_digit_check in Hall.
  destruct (PyStr.to_int (String c "") 10) as [r|[]],
           (Spec.position c "0123456789") as [v|]; try done.
  apply andb_true_iff in Hall as [Hall Hhi]. apply andb_true_iff in Hall as [Hr Hlo].
  apply Z.eqb_eq in Hr. apply Z.leb_le in Hlo, Hhi. by subst.
Qed.

Lemma index_before_start (file : string) (i : Z) :
  i < 0 → Z.of_nat (String.length file) < - i → PyStr.index file i = Raise IndexError.
Proof.
  intros Hi Hlen. unfold PyStr.index.
  destruct (Z.ltb_spec i 0) as [_|]; [|lia].
  by destruct (Z.ltb_spec (i + Z.of_nat (String.length file)) 0) as [_|]; [|lia].
Qed.

Section batch.
Context `{Collaborators}.

(** X11: the round number the batch loop passes on is always one decimal
    digit, the value of the sixth character from the end of the name; the
    prefix of the output files is therefore R followed by one character. *)
Theorem round_number_is_one_digit (file : string) (r : Z) :
  round_number_of file = Ok r →
  0 ≤ r ≤ 9 ∧
  (∃ c, PyStr.index file (-6) = Ok c ∧ Spec.position c "0123456789" = Some r) ∧
  ∀ czi_filename, String.length (base_name_of (Some r) czi_filename) = 2%nat.
Proof.
  unfold round_number_of. destruct (PyStr.index file (-6)) as [c|]; [|done].
  cbn [mbind result_bind]. intros Hr.
  pose proof (single_digit_cases c) as Hc.
  destruct (Spec.position c "0123456789") as [v|] eqn:Hpos; [|congruence].
  destruct Hc as [Hv Hrange]. rewrite Hv in Hr. injection Hr as <-.
  split; [done|]. split; [by exists c|]. intros f.
  assert (v = 0 ∨ v = 1 ∨ v = 2 ∨ v = 3 ∨ v = 4 ∨ v = 5 ∨ v = 6 ∨ v = 7 ∨ v = 8 ∨ v = 9)
    as Hcases by lia.
  repeat (destruct Hcases as [->|Hcases]; [reflexivity|]). by subst.
Qed.

(** X10: a name ending in [.czi] that is shorter than six characters makes
    the batch loop raise IndexError, and one whose sixth character from the
    end is no decimal digit makes it raise ValueError; in both cases the
    disk is untouched and the rest of the listing is not processed. *)
Theorem main_stops_at_bad_name (input_dir : string) (output_dir : option string)
    (dtype : string) (file : string) (rest : list string) (fs : filesystem) :
  PyStr.endswith file ".czi" = true →
  ((String.length file < 6)%nat →
   main input_dir output_dir dtype (file :: rest) fs = (fs, Raise IndexError)) ∧
  (∀ c, PyStr.index file (-6) = Ok c → Spec.position c "0123456789" = None →
   main input_dir output_dir dtype (file :: rest) fs = (fs, Raise ValueError)).
Proof.
  intros Hend. split.
  - intros Hlen. rewrite (main_cons_czi _ _ _ _ _ _ Hend). unfold round_number_of.
    by rewrite index_before_start by lia.
  - intros c Hc Hdigit. rewrite (main_cons_czi _ _ _ _ _ _ Hend).
    unfold round_number_of. rewrite Hc. cbn [mbind result_bind].
    pose proof (single_digit_cases c) as Hcase. rewrite Hdigit in Hcase.
    by rewrite Hcase.
Qed.

End batch.

(** ** Colours *)

Lemma to_int_raises_value_error (s : string) (base : Z) (e : exn) :
  PyStr.to_int s base = Raise e → e = ValueError.
Proof.
  unfold PyStr.to_int. cbv zeta.
  set (parsed := match PyStr.rstrip_space (PyStr.lstrip_space s) with
                 | EmptyString => _ | String _ _ => _ end).
  destruct parsed; congruence.
Qed.

Lemma drop_all (n : nat) (s : string) :
  (String.length s ≤ n)%nat → PyStr.drop n s = "".
Proof.
  revert s. induction n as [|n IH]; intros [|a s] Hlen; cbn in *; try done; try lia.
  apply IH. lia.
Qed.

Lemma length_drop (n : nat) (s : string) :
  String.length (PyStr.drop n s) = (String.length s - n)%nat.
Proof.
  revert s. induction n as [|n IH]; intros [|a s]; cbn; try done.
Qed.

(** A text of at most four characters has no third pair of digits. *)
Lemma hex_to_rgb_short (hex : string) :
  (String.length hex ≤ 4)%nat → hex_to_rgb hex = Raise ValueError.
Proof.
  intros Hlen. unfold hex_to_rgb, PyStr.slice. rewrite (drop_all 4 hex Hlen).
  destruct (PyStr.to_int (PyStr.take (2 - 0) (PyStr.drop 0 hex)) 16) as [r|e] eqn:Hr.
  - cbn [mbind result_bind].
    destruct (PyStr.to_int (PyStr.take (4 - 2) (PyStr.drop 2 hex)) 16) as [g|e] eqn:Hg.
    + reflexivity.
    + apply to_int_raises_value_error in Hg as ->. reflexivity.
  - apply to_int_raises_value_error in Hr as ->. reflexivity.
Qed.

(** X2: [hex_to_rgb] reads the first six characters of its argument and
    nothing else: whatever follows them is ignored. *)
Theorem hex_to_rgb_reads_six_characters (hex : string) :
  hex_to_rgb hex = hex_to_rgb (PyStr.take 6 hex).
Proof.
  destruct hex as [|c1 [|c2 [|c3 [|c4 [|c5 [|c6 rest]]]]]]; reflexivity.
Qed.

(** X3: a channel without [Color] field gets the colour [#FFFFFFFF]: for
    8-bit output each of the three rows of its colormap is 0, 1, ..., 255. *)
Theorem missing_color_gives_identity_ramps (cm : channel_metadata) :
  cm !! "Color" = None →
  make_colormap (DType uint8) cm
    = Ok (Some [identity_ramp; identity_ramp; identity_ramp]).
Proof.
  intros Hnone. unfold make_colormap, synthesize_colormap. rewrite Hnone.
  vm_compute. reflexivity.
Qed.

Section colours.
Context `{Collaborators}.

(** X1: a [Color] with fewer than seven characters after its leading [#]
    signs (an RGB colour of six digits, for one) leaves fewer than five
    characters once the two alpha characters are dropped: for 8-bit output
    the colormap synthesis raises ValueError and the channel is not written. *)
Theorem short_color_raises (cm : channel_metadata) (color : string) :
  cm !! "Color" = Some color →
  (String.length (PyStr.lstrip "#" color) ≤ 6)%nat →
  make_colormap (DType uint8) cm = Raise ValueError ∧
  ∀ output_dir base_name image fs,
    ∃ e, export_channel output_dir base_name (DType uint8) image cm fs = (fs, Raise e).
Proof.
  intros Hcolor Hlen.
  assert (Hmap : make_colormap (DType uint8) cm = Raise ValueError).
  { unfold make_colormap, synthesize_colormap. cbn [dtype_is].
    rewrite bool_decide_eq_true_2 by done. rewrite Hcolor. cbn [default].
    rewrite hex_to_rgb_short; [done|]. rewrite length_drop. unfold id. lia. }
  split; [done|]. intros output_dir base_name image fs.
  rewrite export_channel_run, Hmap.
  destruct (calibrate (DType uint8) image cm); by eexists.
Qed.

End colours.

(** ** Names of the files *)

Lemma str_app_inv_head (s x y : string) : s +:+ x = s +:+ y → x = y.
Proof.
  induction s as [|a s IH]; [done|]. rewrite !app_cons. intros [= Heq]. by apply IH.
Qed.

Lemma take_drop (n : nat) (s : string) : PyStr.take n s +:+ PyStr.drop n s = s.
Proof.
  revert s. induction n as [|n IH]; intros [|a s]; try done.
  cbn [PyStr.take PyStr.drop]. by rewrite app_cons, IH.
Qed.

Lemma str_app_inv_tail (x y t : string) : x +:+ t = y +:+ t → x = y.
Proof.
  intros Heq.
  assert (Hlen : String.length x = String.length y).
  { apply (f_equal String.length) in Heq. rewrite !length_app in Heq. lia. }
  rewrite <- (take_app_length x t), Heq, Hlen. apply take_app_length.
Qed.

Lemma of_int_inj (n m : Z) : PyStr.of_int n = PyStr.of_int m → n = m.
Proof.
  unfold PyStr.of_int. intros Heq. apply DecimalZ.to_int_inj.
  pose proof (NilEmpty.isi (Z.to_int n)) as Hn. rewrite Heq, NilEmpty.isi in Hn.
  by injection Hn.
Qed.

Lemma output_name_inj (base_name : string) (n m : Z) :
  output_name base_name n = output_name base_name m → n = m.
Proof.
  unfold output_name. intros Heq.
  apply str_app_inv_head in Heq. rewrite !app_cons, !app_nil in Heq.
  injection Heq as Heq. by apply str_app_inv_tail, of_int_inj in Heq.
Qed.

Lemma lacks_take (c : ascii) (n : nat) (s : string) : lacks c s → lacks c (PyStr.take n s).
Proof.
  unfold lacks. revert s. induction n as [|n IH]; intros [|a s]; try done.
  cbn. intros [Ha Hs]%andb_true_iff. rewrite Ha. by apply IH.
Qed.

Lemma rfind_nat_none (c : ascii) (s : string) : PyStr.rfind_nat c s = None → lacks c s.
Proof.
  unfold lacks. induction s as [|a s IH]; [done|]. cbn.
  destruct (PyStr.rfind_nat c s); [done|].
  destruct (Ascii.eqb a c); [done|]. intros _. by apply IH.
Qed.

Lemma rfind_nat_some (c : ascii) (s : string) (i : nat) :
  PyStr.rfind_nat c s = Some i → lacks c (PyStr.drop (S i) s).
Proof.
  revert i. induction s as [|a s IH]; intros i; [done|]. cbn [PyStr.rfind_nat].
  destruct (PyStr.rfind_nat c s) as [j|] eqn:Hj.
  - intros [= <-]. by apply IH.
  - destruct (Ascii.eqb a c); [|done]. intros [= <-].
    change (PyStr.drop 1 (String a s)) with (PyStr.drop 0 s).
    rewrite drop_0. by apply rfind_nat_none.
Qed.

Lemma basename_lacks (p : string) : lacks "/" (OsPath.basename p).
Proof.
  unfold OsPath.basename, PyStr.rfind, OsPath.sep.
  destruct (PyStr.rfind_nat "/" p) as [i|] eqn:Hi.
  - replace (Z.to_nat (Z.of_nat i + 1)) with (S i) by lia. by apply rfind_nat_some.
  - cbn. rewrite drop_0. by apply rfind_nat_none.
Qed.

Lemma splitext_root_lacks (c : ascii) (p : string) :
  lacks c p → lacks c (OsPath.splitext p).1.
Proof.
  intros Hp. unfold OsPath.splitext.
  destruct (_ <? _); [|done].
  destruct (negb _); [|done]. cbn. by apply lacks_take.
Qed.

Lemma of_int_lacks_sep (z : Z) : lacks "/" (PyStr.of_int z).
Proof.
  unfold PyStr.of_int.
  assert (Huint : ∀ d, lacks "/" (NilEmpty.string_of_uint d))
    by (induction d; done).
  destruct (Z.to_int z); cbn; [apply Huint|]. apply (Huint d).
Qed.

Lemma base_name_lacks_sep (round_number : option Z) (czi_filename : string) :
  lacks "/" (base_name_of round_number czi_filename).
Proof.
  destruct round_number as [r|]; cbn.
  - apply (lacks_app _ "R"); [done | apply of_int_lacks_sep].
  - apply splitext_root_lacks, basename_lacks.
Qed.

Lemma output_name_lacks_sep (base_name : string) (n : Z) :
  lacks "/" base_name → lacks "/" (output_name base_name n).
Proof.
  intros Hb. unfold output_name.
  repeat apply lacks_app; [done.. | apply of_int_lacks_sep | done].
Qed.

Lemma endswith_inv (s suffix : string) :
  PyStr.endswith s suffix = true → ∃ s', s = s' +:+ suffix.
Proof.
  unfold PyStr.endswith. intros [Heq _]%andb_true_iff. apply String.eqb_eq in Heq.
  set (k := (String.length s - String.length suffix)%nat) in *.
  exists (PyStr.take k s).
  transitivity (PyStr.take k s +:+ PyStr.drop k s); [by rewrite take_drop|].
  by rewrite Heq.
Qed.

Lemma join_relative (a name : string) :
  lacks "/" name →
  OsPath.join a name =
    if String.eqb a "" || PyStr.endswith a "/" then a +:+ name
    else a +:+ "/" +:+ name.
Proof.
  unfold lacks, OsPath.join. destruct name as [|c name']; [done|].
  cbn [PyStr.all_chars]. intros [Hc _]%andb_true_iff.
  destruct c as [[] [] [] [] [] [] [] []]; try reflexivity. discriminate Hc.
Qed.

(** The base name of a joined path is the joined name, when that name has
    no slash. *)
Lemma basename_of_join (a name : string) :
  lacks "/" name → OsPath.basename (OsPath.join a name) = name.
Proof.
  intros Hname. rewrite (join_relative _ _ Hname).
  destruct (String.eqb a "" || PyStr.endswith a "/") eqn:Hcase.
  - apply orb_true_iff in Hcase as [->%String.eqb_eq | [a' ->]%endswith_inv].
    + by apply basename_plain.
    + rewrite app_assoc_str. by apply basename_join.
  - by apply basename_join.
Qed.

(** X13: the name of an output file never contains a slash, so the file is
    written directly into the output directory: the base name of the path
    handed to [imwrite] is the name [{prefix}C{n}.tif] itself. *)
Theorem output_file_stays_in_output_dir (output_dir : string)
    (round_number : option Z) (czi_filename : string) (n : Z) :
  let name := output_name (base_name_of round_number czi_filename) n in
  lacks "/" name ∧
  OsPath.basename (OsPath.join output_dir name) = name.
Proof.
  intros name.
  assert (Hname : lacks "/" name)
    by apply output_name_lacks_sep, base_name_lacks_sep.
  split; [done | by apply basename_of_join].
Qed.

Lemma shortname_entries (short_name : string) (n : Z) :
  SHORTNAME_MAPPING !! short_name = Some n →
  (short_name, n) ∈
    [("AF350", 1); ("AF405", 2); ("AF430", 3); ("AF480", 4); ("AF546", 5);
     ("AF594", 6); ("AF647", 7); ("PCP55", 8); ("AF700", 9); ("I800r", 10);
     ("PhaCo", 11)].
Proof. apply elem_of_list_to_map_2. Qed.

Lemma shortname_mapping_inj (s1 s2 : string) (n : Z) :
  SHORTNAME_MAPPING !! s1 = Some n → SHORTNAME_MAPPING !! s2 = Some n → s1 = s2.
Proof.
  intros H1%shortname_entries H2%shortname_entries.
  rewrite !elem_of_cons, elem_of_nil in H1, H2.
  destruct_or!; simplify_eq; done.
Qed.

(** X5: the table gives different channel numbers, between 1 and 11, to
    different short names, and different channel numbers give different
    output paths: within one export two channels with different short
    names never share a file. *)
Theorem distinct_short_names_distinct_files (s1 s2 : string) (n1 n2 : Z)
    (output_dir : string) (round_number : option Z) (czi_filename : string) :
  SHORTNAME_MAPPING !! s1 = Some n1 →
  SHORTNAME_MAPPING !! s2 = Some n2 →
  s1 ≠ s2 →
  1 ≤ n1 ≤ 11 ∧ n1 ≠ n2 ∧
  OsPath.join output_dir (output_name (base_name_of round_number czi_filename) n1) ≠
  OsPath.join output_dir (output_name (base_name_of round_number czi_filename) n2).
Proof.
  intros H1 H2 Hne.
  assert (Hn : n1 ≠ n2).
  { intros <-. apply Hne. by apply (shortname_mapping_inj _ _ n1). }
  split.
  { apply shortname_entries in H1. rewrite !elem_of_cons, elem_of_nil in H1.
    destruct_or!; simplify_eq; lia. }
  split; [done|]. intros Heq. apply Hn.
  apply (f_equal OsPath.basename) in Heq.
  rewrite !basename_of_join in Heq
    by apply output_name_lacks_sep, base_name_lacks_sep.
  by apply output_name_inj in Heq.
Qed.

(** ** The further properties on the example container *)

Lemma export_czi_ok_every_channel_witness :
  ∃ cm short_name n,
    czi_channels Demo.scan !! 1%nat = Some cm ∧
    cm !! "ShortName" = Some short_name ∧
    SHORTNAME_MAPPING !! short_name = Some n ∧
    is_Some (fs_files
               (export_czi (H := Demo.collaborators) "/data/S1_R2a.czi" (Some "out")
                  (Some 2) "default" Demo.empty_disk).1
             !! OsPath.join (output_dir_of (Some "out") "/data/S1_R2a.czi")
                  (output_name (base_name_of (Some 2) "/data/S1_R2a.czi") n)).
Proof.
  apply (export_czi_ok_every_channel (H := Demo.collaborators) "/data/S1_R2a.czi"
           (Some "out") (Some 2) "default" Demo.scan Demo.empty_disk).
  - reflexivity.
  - vm_compute. reflexivity.
  - cbn. lia.
Defined.


Lemma same_channel_number_overwrites_witness :
  let fs1 := (export_channel (H := Demo.collaborators) "out" "R2" (DType uint8)
                Demo.plane0 Demo.channel1 Demo.empty_disk).1 in
  let fs2 := (export_channel (H := Demo.collaborators) "out" "R2" (DType uint8)
                Demo.plane1 Demo.channel1 fs1).1 in
  export_channel (H := Demo.collaborators) "out" "R2" (DType uint8)
    Demo.plane1 Demo.channel1 Demo.empty_disk = (fs2, Ok ()).
Proof.
  cbv zeta.
  apply (same_channel_number_overwrites (H := Demo.collaborators) "out" "R2"
           (DType uint8) Demo.plane0 Demo.plane1 Demo.channel1 Demo.channel1 2
           Demo.empty_disk
           (export_channel (H := Demo.collaborators) "out" "R2" (DType uint8)
              Demo.plane0 Demo.channel1 Demo.empty_disk).1);
    vm_compute; reflexivity.
Defined.

Lemma default_dtype_follows_container_witness :
  export_czi (H := Demo.collaborators) "/data/S1_R2a.czi" (Some "out") (Some 2)
    "default" Demo.empty_disk =
  export_czi (H := Demo.collaborators) "/data/S1_R2a.czi" (Some "out") (Some 2)
    "uint8" Demo.empty_disk.
Proof.
  apply (default_dtype_follows_container (H := Demo.collaborators) "/data/S1_R2a.czi"
           (Some "out") (Some 2) Demo.scan Demo.empty_disk); reflexivity.
Defined.

Lemma bare_file_name_without_output_dir_fails_witness :
  export_czi (H := Demo.collaborators) "S1_R2a.czi" None (Some 2) "uint8"
    Demo.empty_disk = (Demo.empty_disk, Raise (FileNotFoundError "")).
Proof.
  apply (bare_file_name_without_output_dir_fails (H := Demo.collaborators)).
  - reflexivity.
  - cbn. set_solver.
  - reflexivity.
Defined.

Lemma round_number_is_one_digit_witness :
  0 ≤ 2 ≤ 9 ∧ String.length (base_name_of (Some 2) "/data/S1_R2a.czi") = 2%nat.
Proof.
  destruct (round_number_is_one_digit "S1_R2a.czi" 2) as (Hr & _ & Hlen);
    [reflexivity|]. split; [exact Hr | apply Hlen].
Defined.

Lemma main_stops_at_bad_name_witness :
  main (H := Demo.collaborators) "/data" None "uint8" ["a.czi"; "S1_R2a.czi"]
    Demo.empty_disk = (Demo.empty_disk, Raise IndexError) ∧
  main (H := Demo.collaborators) "/data" None "uint8" ["S1_Rxa.czi"; "S1_R2a.czi"]
    Demo.empty_disk = (Demo.empty_disk, Raise ValueError).
Proof.
  split.
  - destruct (main_stops_at_bad_name (H := Demo.collaborators) "/data" None "uint8"
                "a.czi" ["S1_R2a.czi"] Demo.empty_disk) as [Hshort _];
      [reflexivity|]. apply Hshort. cbn. lia.
  - destruct (main_stops_at_bad_name (H := Demo.collaborators) "/data" None "uint8"
                "S1_Rxa.czi" ["S1_R2a.czi"] Demo.empty_disk) as [_ Hdigit];
      [reflexivity|]. by apply (Hdigit "x"%char).
Defined.

Lemma missing_color_gives_identity_ramps_witness :
  make_colormap (DType uint8) (<["ShortName" := "AF350"]> ∅)
    = Ok (Some [identity_ramp; identity_ramp; identity_ramp]).
Proof. apply missing_color_gives_identity_ramps. reflexivity. Defined.

Lemma short_color_raises_witness :
  make_colormap (DType uint8) (<["Color" := "#FF0000"]> ∅) = Raise ValueError.
Proof.
  destruct (short_color_raises (H := Demo.collaborators) (<["Color" := "#FF0000"]> ∅)
              "#FF0000") as [Hmap _]; [reflexivity | cbn; lia | exact Hmap].
Defined.

Lemma distinct_short_names_distinct_files_witness :
  OsPath.join "out" (output_name (base_name_of (Some 2) "/data/S1_R2a.czi") 7) ≠
  OsPath.join "out" (output_name (base_name_of (Some 2) "/data/S1_R2a.czi") 2).
Proof.
  destruct (distinct_short_names_distinct_files "AF647" "AF405" 7 2 "out" (Some 2)
              "/data/S1_R2a.czi") as (_ & _ & Hpaths);
    [reflexivity | reflexivity | done | exact Hpaths].
Defined.
